(** * aks-storage.py: a shallow embedding of the provisioning script

    The script [aks-storage.py] shells out to the Azure CLI and to kubectl in a
    fixed order.  This development embeds its control flow:

    - Python strings are [string]s (one [ascii] per character);
    - [subprocess.run] consults a [World], an oracle that maps the number of
      the call and its argument vector to a [CompletedProcess];
    - every function that shells out, sleeps, prints or touches a temporary
      file lives in a small monad [M] that threads the process state [St],
      writes a chronological log of [Event]s and may raise an [Exn];
    - [typer.Exit] is [click.exceptions.Exit], a subclass of [RuntimeError]:
      an [except Exception] handler catches it, as it catches [Exception].

    Pure decoration (rich panels, tables of attributes, syntax highlighting)
    is not part of the model; the messages that tell how the control flow went
    are, as constructors of [Msg].  The text of the Kubernetes manifests is
    abstracted to a [Manifest] value that keeps the interpolated fields. *)

From Stdlib Require Import String Ascii List ZArith Bool Lia PeanoNat.
From Stdlib Require Import DecimalString DecimalNat.
Import ListNotations.
Open Scope string_scope.
Open Scope list_scope.

(** ** Python string helpers *)

Module PyStr.

(** [bool(s)] for a string: the empty string is falsy. *)
Definition truthy (s : string) : bool :=
  match s with EmptyString => false | String _ _ => true end.

(** [s.replace("-", "")] *)
Fixpoint remove_hyphens (s : string) : string :=
  match s with
  | EmptyString => EmptyString
  | String c r =>
      if Ascii.eqb c "-"%char then remove_hyphens r
      else String c (remove_hyphens r)
  end.

(** [s[:n]] *)
Fixpoint take (n : nat) (s : string) : string :=
  match n, s with
  | O, _ => EmptyString
  | S _, EmptyString => EmptyString
  | S k, String c r => String c (take k r)
  end.

(** [c.isspace()] on the ASCII range: TAB..CR, FS..US and the blank. *)
Definition is_space (c : ascii) : bool :=
  let n := nat_of_ascii c in
  ((9 <=? n)%nat && (n <=? 13)%nat) || ((28 <=? n)%nat && (n <=? 32)%nat).

Fixpoint lstrip (s : string) : string :=
  match s with
  | EmptyString => EmptyString
  | String c r => if is_space c then lstrip r else s
  end.

(** Removes the trailing blanks: a character is kept when it is not a blank
    or when something remains after it. *)
Fixpoint rstrip (s : string) : string :=
  match s with
  | EmptyString => EmptyString
  | String c r =>
      match rstrip r with
      | EmptyString => if is_space c then EmptyString else String c EmptyString
      | r' => String c r'
      end
  end.

(** [s.strip()] *)
Definition strip (s : string) : string := rstrip (lstrip s).

(** [str(b).lower()] for a boolean. *)
Definition lower_bool (b : bool) : string :=
  if b then "true" else "false".

(** [c in s] for a character. *)
Fixpoint contains (c : ascii) (s : string) : bool :=
  match s with
  | EmptyString => false
  | String d r => Ascii.eqb c d || contains c r
  end.

(** [x or default] for strings. *)
Definition or_else (s d : string) : string :=
  if truthy s then s else d.

(** [s[i]], with a default out of range. *)
Definition char_at (s : string) (i : nat) : ascii :=
  match String.get i s with Some c => c | None => "a"%char end.

End PyStr.

(** ** Enumerations and the configuration record *)

Inductive StorageType := BLOB | FILE.
Inductive ProvisionType := PERSISTENT | DYNAMIC.

Definition StorageType_eqb (a b : StorageType) : bool :=
  match a, b with BLOB, BLOB | FILE, FILE => true | _, _ => false end.

Definition ProvisionType_eqb (a b : ProvisionType) : bool :=
  match a, b with
  | PERSISTENT, PERSISTENT | DYNAMIC, DYNAMIC => true
  | _, _ => false
  end.

(** The [.value] of the enumeration members. *)
Definition storage_value (s : StorageType) : string :=
  match s with BLOB => "Blob" | FILE => "File" end.

Definition provision_value (p : ProvisionType) : string :=
  match p with PERSISTENT => "Persistent" | DYNAMIC => "Dynamic" end.

(** The keyword arguments of [Config(...)]: a field that the caller leaves
    out is [None] (enumerations, the flag) or the empty string. *)
Record ConfigData := {
  d_group : string;
  d_storage_type : option StorageType;
  d_provision_type : option ProvisionType;
  d_unique_id : string;
  d_resource_group : string;
  d_storage_account : string;
  d_identity_name : string;
  d_cluster_name : string;
  d_allow_shared_key_access : option bool
}.

(** The object after [Config.__init__]. *)
Record Config := {
  group : string;
  storage_type : StorageType;
  provision_type : ProvisionType;
  location : string;
  unique_id : string;
  resource_group : string;
  storage_account : string;
  identity_name : string;
  cluster_name : string;
  allow_shared_key_access : bool
}.

Definition alphabet : string := "abcdefghijklmnopqrstuvwxyz0123456789".

(** [random.choices(alphabet, k=k)]: the generator is a stream of naturals,
    each reduced to an index of the alphabet. *)
Fixpoint random_choices (gen : nat -> nat) (k : nat) : string :=
  match k with
  | O => EmptyString
  | S k' =>
      String (PyStr.char_at alphabet (gen k' mod String.length alphabet))
             (random_choices gen k')
  end.

Definition or_derived (given derived : string) : string :=
  if PyStr.truthy given then given else derived.

(** [Config.__init__] *)
Definition Config_init (gen : nat -> nat) (data : ConfigData) : Config :=
  let st := match d_storage_type data with Some s => s | None => BLOB end in
  let pt :=
    match d_provision_type data with Some p => p | None => PERSISTENT end in
  let uid :=
    if PyStr.truthy (d_unique_id data) then d_unique_id data
    else random_choices gen 6 in
  let g := d_group data in
  {| group := g;
     storage_type := st;
     provision_type := pt;
     location := "centralus";
     unique_id := uid;
     resource_group :=
       or_derived (d_resource_group data) (g ++ "-" ++ uid ++ "-rg");
     storage_account :=
       or_derived (d_storage_account data)
         (PyStr.take 24 (PyStr.remove_hyphens (g ++ uid ++ "sa")));
     identity_name :=
       or_derived (d_identity_name data) (g ++ "-" ++ uid ++ "-identity");
     cluster_name :=
       or_derived (d_cluster_name data) (g ++ "-" ++ uid ++ "-aks");
     allow_shared_key_access :=
       match d_allow_shared_key_access data with
       | Some b => b
       | None =>
           if StorageType_eqb st BLOB && ProvisionType_eqb pt PERSISTENT
           then false else true
       end |}.

(** A call [Config(group=g, storage_type=st, provision_type=pt,
    allow_shared_key_access=a)] with the other keywords left out. *)
Definition config_data (g : string) (st : option StorageType)
    (pt : option ProvisionType) (uid : string) (a : option bool) : ConfigData :=
  {| d_group := g; d_storage_type := st; d_provision_type := pt;
     d_unique_id := uid; d_resource_group := ""; d_storage_account := "";
     d_identity_name := ""; d_cluster_name := "";
     d_allow_shared_key_access := a |}.

(** ** The outside world, events and the process state *)

(** [subprocess.CompletedProcess] *)
Record CompletedProcess := {
  returncode : Z;
  stdout : string;
  stderr : string
}.

(** What the script cannot decide: the result of the n-th external command,
    given its argument vector, and the stream behind [random.choices]. *)
Record World := {
  run_result : nat -> list string -> CompletedProcess;
  randomness : nat -> nat
}.

(** [typer.Exit(code)] and [Exception(msg)]; both are instances of
    [Exception]. *)
Inductive Exn :=
| Exit (code : Z)
| PyException (msg : string).

(** The manifests handed to [kubectl apply]; the fields are the values the
    f-strings interpolate. *)
Inductive Manifest :=
| ServiceAccountYaml (client_id : string)
| PersistentVolumeYaml (st : StorageType)
    (rg account target client_id : string)
| PersistentVolumeClaimYaml (st : StorageType) (pt : ProvisionType)
| JobYaml (st : StorageType) (pt : ProvisionType).

(** A row of the table "AKS Storage Integration Results". *)
Record ResultRow := {
  row_case : string;
  row_success : bool;
  row_keyless : bool
}.

(** The lines printed on the console, without their markup. *)
Inductive Msg :=
| MsgCommand (argv : list string)
| MsgSuccess (text : string)
| MsgOutput (text : string)
| MsgError (text : string)
| MsgErrorOutput (text : string)
| MsgTerminated
| MsgKubectlTerminated
| MsgInfo (text : string)
| MsgYaml (m : Manifest)
| MsgApplying (description : string)
| MsgRetry (retry_count max_retries : nat)
| MsgJobTimeout
| MsgTestResults (text : string)
| MsgValidation (text : string)
| MsgUseCase (i : nat) (name : string)
| MsgCaseError (name : string) (e : Exn)
| MsgResults (rows : list ResultRow)
| MsgSummary (c : Config) (keyless : bool)
| MsgFatal (e : Exn).

Inductive Event :=
| ERun (argv : list string) (r : CompletedProcess)
| ESleep (seconds : Z)
| EPrint (m : Msg)
| ETmpCreate (n : nat) (content : Manifest)
| EUnlink (n : nat).

(** The state of the process: the number of external commands run so far,
    the number of temporary files created so far and the temporary files
    that exist. *)
Record St := {
  calls : nat;
  tmp_next : nat;
  tmp_files : list nat
}.

Definition initial : St := {| calls := 0; tmp_next := 0; tmp_files := [] |}.

(** The name of the n-th temporary file. *)
Definition tmp_name (n : nat) : string :=
  "/tmp/tmp" ++ NilEmpty.string_of_uint (Nat.to_uint n).

(** ** The monad of the script *)

Inductive Res (A : Type) :=
| Ok (a : A)
| Raise (e : Exn).
Arguments Ok {A} a.
Arguments Raise {A} e.

Record Out (A : Type) := mkOut {
  log : list Event;
  st : St;
  res : Res A
}.
Arguments mkOut {A} log st res.
Arguments log {A} o.
Arguments st {A} o.
Arguments res {A} o.

Definition M (A : Type) : Type := St -> Out A.

Definition ret {A} (a : A) : M A := fun s => mkOut [] s (Ok a).

Definition raise {A} (e : Exn) : M A := fun s => mkOut [] s (Raise e).

Definition bind {A B} (m : M A) (f : A -> M B) : M B :=
  fun s =>
    match m s with
    | mkOut l1 s1 (Ok a) =>
        match f a s1 with
        | mkOut l2 s2 r => mkOut (l1 ++ l2) s2 r
        end
    | mkOut l1 s1 (Raise e) => mkOut l1 s1 (Raise e)
    end.

(** [try: m except Exception as e: h e] *)
Definition try_except {A} (m : M A) (h : Exn -> M A) : M A :=
  fun s =>
    match m s with
    | mkOut l1 s1 (Ok a) => mkOut l1 s1 (Ok a)
    | mkOut l1 s1 (Raise e) =>
        match h e s1 with
        | mkOut l2 s2 r => mkOut (l1 ++ l2) s2 r
        end
    end.

Declare Scope py_scope.
Delimit Scope py_scope with py.
Notation "x <- m ;; k" := (bind m (fun x => k))
  (at level 100, m at next level, right associativity) : py_scope.
Notation "m ;; k" := (bind m (fun _ => k))
  (at level 100, right associativity) : py_scope.
Open Scope py_scope.

Definition emit (e : Event) : M unit := fun s => mkOut [e] s (Ok tt).

(** [console.print], of a text, a [Panel] or a table.  Rich renders the
    text it is given as markup and raises [MarkupError] on a closing tag
    that matches no open tag, so the print of a text that comes from outside
    (the group name, the output of a command, the text of an exception) can
    raise.  The embedding follows the reading in which every text renders:
    [print] always returns.  On a text that does not render, the script goes
    as the embedded run up to that print and raises there; what is proved of
    every event of a log, or of a run that returns, carries over to such a
    run of the single-case mode. *)
Definition print (m : Msg) : M unit := emit (EPrint m).

(** [time.sleep] *)
Definition sleep (seconds : Z) : M unit := emit (ESleep seconds).

Definition when (b : bool) (m : M unit) : M unit :=
  if b then m else ret tt.

(** The exit status of the process for the outcome of [main]: 0 when it
    returns, the code of a [typer.Exit], 1 for another exception. *)
Definition exit_code {A} (r : Res A) : Z :=
  match r with
  | Ok _ => 0
  | Raise (Exit c) => c
  | Raise (PyException _) => 1
  end.

Definition is_ok {A} (r : Res A) : bool :=
  match r with Ok _ => true | Raise _ => false end.

Definition succeeded (r : CompletedProcess) : bool := (returncode r =? 0)%Z.

Section Script.

Variable env : World.

(** [subprocess.run(argv, capture_output=True, text=True)] *)
Definition subprocess_run (argv : list string) : M CompletedProcess :=
  fun s =>
    let r := run_result env (calls s) argv in
    mkOut [ERun argv r]
      {| calls := S (calls s); tmp_next := tmp_next s;
         tmp_files := tmp_files s |}
      (Ok r).

(** [tempfile.NamedTemporaryFile(mode="w", delete=False)] followed by the
    write and the flush; the result is the number of the file. *)
Definition NamedTemporaryFile (content : Manifest) : M nat :=
  fun s =>
    let n := tmp_next s in
    mkOut [ETmpCreate n content]
      {| calls := calls s; tmp_next := S n;
         tmp_files := tmp_files s ++ [n] |}
      (Ok n).

(** [os.unlink(temp_file.name)] *)
Definition unlink (n : nat) : M unit :=
  fun s =>
    mkOut [EUnlink n]
      {| calls := calls s; tmp_next := tmp_next s;
         tmp_files := List.remove Nat.eq_dec n (tmp_files s) |}
      (Ok tt).

(** [run_command] *)
Definition run_command (cmd_list : list string) (display : bool)
  : M CompletedProcess :=
  when display (print (MsgCommand cmd_list)) ;;
  subprocess_run cmd_list.

(** [display_k8s_yaml] *)
Definition display_k8s_yaml (m : Manifest) : M unit := print (MsgYaml m).

(** [display_command_result] *)
Definition display_command_result (result : CompletedProcess)
    (success_message error_message : string) (show_output : bool) : M unit :=
  if succeeded result then
    when (PyStr.truthy success_message) (print (MsgSuccess success_message)) ;;
    when (show_output && PyStr.truthy (stdout result)
          && PyStr.truthy (PyStr.strip (stdout result)))
      (print (MsgOutput (PyStr.strip (stdout result))))
  else
    when (PyStr.truthy error_message) (print (MsgError error_message)) ;;
    when (PyStr.truthy (stderr result)
          && PyStr.truthy (PyStr.strip (stderr result)))
      (print (MsgErrorOutput (PyStr.strip (stderr result)))) ;;
    print MsgTerminated ;;
    raise (Exit 1).

(** *** [AzureManager] *)

(** The attributes of an [AzureManager] that the script reads back. *)
Record AzureManager := {
  config : Config;
  subscription_id : string;
  resource_group_id : string;
  storage_account_id : string;
  identity_principal_id : string;
  identity_client_id : string;
  oidc_issuer_url : string;
  blob_container_name : string;
  file_share_name : string
}.

Definition set_resource_group_id (v : string) (m : AzureManager) :=
  {| config := config m; subscription_id := subscription_id m;
     resource_group_id := v; storage_account_id := storage_account_id m;
     identity_principal_id := identity_principal_id m;
     identity_client_id := identity_client_id m;
     oidc_issuer_url := oidc_issuer_url m;
     blob_container_name := blob_container_name m;
     file_share_name := file_share_name m |}.

Definition set_storage_account_id (v : string) (m : AzureManager) :=
  {| config := config m; subscription_id := subscription_id m;
     resource_group_id := resource_group_id m; storage_account_id := v;
     identity_principal_id := identity_principal_id m;
     identity_client_id := identity_client_id m;
     oidc_issuer_url := oidc_issuer_url m;
     blob_container_name := blob_container_name m;
     file_share_name := file_share_name m |}.

Definition set_identity_principal_id (v : string) (m : AzureManager) :=
  {| config := config m; subscription_id := subscription_id m;
     resource_group_id := resource_group_id m;
     storage_account_id := storage_account_id m;
     identity_principal_id := v;
     identity_client_id := identity_client_id m;
     oidc_issuer_url := oidc_issuer_url m;
     blob_container_name := blob_container_name m;
     file_share_name := file_share_name m |}.

Definition set_identity_client_id (v : string) (m : AzureManager) :=
  {| config := config m; subscription_id := subscription_id m;
     resource_group_id := resource_group_id m;
     storage_account_id := storage_account_id m;
     identity_principal_id := identity_principal_id m;
     identity_client_id := v;
     oidc_issuer_url := oidc_issuer_url m;
     blob_container_name := blob_container_name m;
     file_share_name := file_share_name m |}.

Definition set_oidc_issuer_url (v : string) (m : AzureManager) :=
  {| config := config m; subscription_id := subscription_id m;
     resource_group_id := resource_group_id m;
     storage_account_id := storage_account_id m;
     identity_principal_id := identity_principal_id m;
     identity_client_id := identity_client_id m;
     oidc_issuer_url := v;
     blob_container_name := blob_container_name m;
     file_share_name := file_share_name m |}.

(** [AzureManager._get_subscription_id] *)
Definition get_subscription_id : M string :=
  result <- subprocess_run ["az"; "account"; "show"; "--query"; "id"; "-o"; "tsv"] ;;
  ret (PyStr.strip (stdout result)).

(** [AzureManager.__init__]; building the credential and the SDK clients
    runs no command. *)
Definition AzureManager_init (c : Config) : M AzureManager :=
  sub <- get_subscription_id ;;
  ret {| config := c; subscription_id := sub; resource_group_id := "";
         storage_account_id := ""; identity_principal_id := "";
         identity_client_id := ""; oidc_issuer_url := "";
         blob_container_name := "mycontainer";
         file_share_name := "myshare" |}.

(** *** Step 1: [create_resource_group] *)

Definition use_case_tags : list (string * string) :=
  [("UseCase1", "Blob Storage with Static Provisioning");
   ("UseCase2", "Blob Storage with Dynamic Provisioning");
   ("UseCase3", "File Storage with Static Provisioning");
   ("UseCase4", "File Storage with Dynamic Provisioning")].

Definition tag (k : string) : list (string * string) :=
  filter (fun kv => String.eqb (fst kv) k) use_case_tags.

(** The tags of one (storage, provision) pair, where [None] is a key that
    the filter lacks. *)
Definition tags_of (st : option StorageType) (pt : option ProvisionType)
  : list (string * string) :=
  match st, pt with
  | Some BLOB, Some PERSISTENT => tag "UseCase1"
  | Some BLOB, Some DYNAMIC => tag "UseCase2"
  | Some FILE, Some PERSISTENT => tag "UseCase3"
  | Some FILE, Some DYNAMIC => tag "UseCase4"
  | Some BLOB, None => tag "UseCase1" ++ tag "UseCase2"
  | Some FILE, None => tag "UseCase3" ++ tag "UseCase4"
  | None, Some PERSISTENT => tag "UseCase1" ++ tag "UseCase3"
  | None, Some DYNAMIC => tag "UseCase2" ++ tag "UseCase4"
  | None, None => []
  end.

(** A filter is a dict with the keys "storage" and "provision", each of
    them optional; the empty dict is falsy. *)
Definition Filter : Type := option StorageType * option ProvisionType.

Definition filter_truthy (f : option Filter) : bool :=
  match f with
  | Some (Some _, _) | Some (_, Some _) => true
  | _ => false
  end.

Definition create_resource_group (self : AzureManager)
    (all_use_cases : bool) (use_cases_filter : option Filter)
  : M AzureManager :=
  let c := config self in
  let tags :=
    if all_use_cases then use_case_tags
    else if filter_truthy use_cases_filter then
      match use_cases_filter with
      | Some (st, pt) => tags_of st pt
      | None => []
      end
    else tags_of (Some (storage_type c)) (Some (provision_type c)) in
  let tags :=
    if negb (allow_shared_key_access c)
    then tags ++ [("KeyAccess", "disabled")] else tags in
  let cmd :=
    ["az"; "group"; "create"; "-n"; resource_group c; "-l"; location c]
    ++ match tags with
       | [] => []
       | _ => "--tags" :: map (fun kv => (fst kv ++ "=" ++ snd kv)%string) tags
       end in
  result <- run_command cmd true ;;
  let self :=
    if succeeded result
    then set_resource_group_id (PyStr.strip (stdout result)) self
    else self in
  display_command_result result
    ("Resource group created: " ++ resource_group c)
    ("Failed to create resource group: " ++ resource_group c) false ;;
  ret self.

(** *** Step 2: [create_managed_identity] *)

Definition identity_show_cmd (c : Config) (query : string) : list string :=
  ["az"; "identity"; "show"; "--resource-group"; resource_group c;
   "--name"; identity_name c; "--query"; query; "-o"; "tsv"].

Definition create_managed_identity (self : AzureManager) : M AzureManager :=
  let c := config self in
  create_result <-
    run_command
      ["az"; "identity"; "create"; "--resource-group"; resource_group c;
       "--name"; identity_name c; "--location"; location c;
       "--query"; "id"; "-o"; "tsv"] true ;;
  display_command_result create_result
    ("Created managed identity: " ++ identity_name c)
    "Failed to create managed identity" false ;;
  client_id_result <- run_command (identity_show_cmd c "clientId") false ;;
  let self :=
    set_identity_client_id (PyStr.strip (stdout client_id_result)) self in
  principal_id_result <-
    run_command (identity_show_cmd c "principalId") false ;;
  let self :=
    set_identity_principal_id (PyStr.strip (stdout principal_id_result))
      self in
  if negb (PyStr.truthy (identity_client_id self))
     || negb (PyStr.truthy (identity_principal_id self))
  then raise (PyException "Failed to retrieve managed identity IDs properly")
  else ret self.

(** *** Step 3: [create_storage_account] *)

Definition max_retries : nat := 3.

Definition storage_show_cmd (c : Config) (query : string) : list string :=
  ["az"; "storage"; "account"; "show"; "--name"; storage_account c;
   "--query"; query; "-o"; "tsv"].

Definition storage_create_cmd (c : Config) (allow : bool) : list string :=
  ["az"; "storage"; "account"; "create";
   "--resource-group"; resource_group c;
   "--name"; storage_account c;
   "--location"; location c;
   "--sku"; "Standard_LRS"; "--kind"; "StorageV2";
   "--allow-shared-key-access"; PyStr.lower_bool allow;
   "--allow-blob-public-access"; "false";
   "--query"; "id"; "-o"; "tsv"].

(** The variables of the [while] loop. *)
Record RetryState := {
  rs_self : AzureManager;
  rs_retry_count : nat;
  rs_success : bool;
  rs_storage_result : option CompletedProcess
}.

(** [while retry_count < max_retries and not success: ...]; [fuel] bounds
    the number of iterations ([retry_loop_fuel] below shows that
    [max_retries] is enough). *)
Fixpoint retry_loop (fuel : nat) (allow : bool) (v : RetryState)
  : M RetryState :=
  if (rs_retry_count v <? max_retries)%nat && negb (rs_success v) then
    match fuel with
    | O => ret v
    | S fuel' =>
        let self := rs_self v in
        storage_result <-
          run_command (storage_create_cmd (config self) allow) true ;;
        if succeeded storage_result
           && PyStr.truthy (PyStr.strip (stdout storage_result))
        then
          retry_loop fuel' allow
            {| rs_self :=
                 set_storage_account_id
                   (PyStr.strip (stdout storage_result)) self;
               rs_retry_count := rs_retry_count v;
               rs_success := true;
               rs_storage_result := Some storage_result |}
        else
          let retry_count := S (rs_retry_count v) in
          when (retry_count <? max_retries)%nat
            (print (MsgRetry retry_count max_retries) ;; sleep 5) ;;
          retry_loop fuel' allow
            {| rs_self := self;
               rs_retry_count := retry_count;
               rs_success := false;
               rs_storage_result := Some storage_result |}
    end
  else ret v.

Definition stderr_or_unknown (r : option CompletedProcess) : string :=
  match r with
  | Some r => PyStr.or_else (PyStr.strip (stderr r)) "Unknown error"
  | None => "Unknown error"
  end.

Definition create_failed_msg (r : option CompletedProcess) : string :=
  "Failed to create storage account after 3 attempts: "
  ++ stderr_or_unknown r.

Definition container_create_cmd (self : AzureManager) (auth : bool)
  : list string :=
  ["az"; "storage"; "container"; "create";
   "--name"; blob_container_name self;
   "--account-name"; storage_account (config self)]
  ++ (if auth then ["--auth-mode"; "login"] else []).

Definition share_create_cmd (self : AzureManager) : list string :=
  ["az"; "storage"; "share"; "create";
   "--name"; file_share_name self;
   "--account-name"; storage_account (config self)].

Definition create_storage_account (self : AzureManager) : M AzureManager :=
  let c := config self in
  let allow := allow_shared_key_access c in
  check_exists <- subprocess_run (storage_show_cmd c "name") ;;
  self <-
    (if succeeded check_exists
        && PyStr.truthy (PyStr.strip (stdout check_exists))
     then
       print (MsgInfo ("Storage account already exists: "
                       ++ storage_account c ++ ". Using existing account.")) ;;
       account_id_result <- subprocess_run (storage_show_cmd c "id") ;;
       ret (set_storage_account_id
              (PyStr.strip (stdout account_id_result)) self)
     else
       v <- retry_loop max_retries allow
              {| rs_self := self; rs_retry_count := 0;
                 rs_success := false; rs_storage_result := None |} ;;
       (if negb (rs_success v)
        then raise (PyException (create_failed_msg (rs_storage_result v)))
        else ret tt) ;;
       verify_result <- subprocess_run (storage_show_cmd c "name") ;;
       (if negb (succeeded verify_result)
           || negb (PyStr.truthy (PyStr.strip (stdout verify_result)))
        then raise (PyException ("Storage account " ++ storage_account c
                                 ++ " was not created successfully"))
        else ret tt) ;;
       print (MsgInfo ("Storage account created and verified: "
                       ++ storage_account c)) ;;
       ret (rs_self v)) ;;
  match storage_type c with
  | BLOB =>
      container_result <-
        subprocess_run (container_create_cmd self (negb allow)) ;;
      (if negb (succeeded container_result)
       then raise (PyException
                     ("Failed to create blob container: "
                      ++ PyStr.or_else (PyStr.strip (stderr container_result))
                           "Unknown error"))
       else ret tt) ;;
      print (MsgInfo ("Blob container created: " ++ blob_container_name self)) ;;
      ret self
  | FILE =>
      share_result <- subprocess_run (share_create_cmd self) ;;
      (if negb (succeeded share_result)
       then raise (PyException
                     ("Failed to create file share: "
                      ++ PyStr.or_else (PyStr.strip (stderr share_result))
                           "Unknown error"))
       else ret tt) ;;
      print (MsgInfo ("File share created: " ++ file_share_name self)) ;;
      ret self
  end.

(** *** Step 4: [assign_roles] *)

Definition role_assignment_cmd (assignee role scope : string)
  : list string :=
  ["az"; "role"; "assignment"; "create"; "--assignee"; assignee;
   "--role"; role; "--scope"; scope].

Definition assign_roles (self : AzureManager) : M unit :=
  let c := config self in
  (if negb (PyStr.truthy (storage_account_id self))
      && ProvisionType_eqb (provision_type c) DYNAMIC
   then
     print (MsgInfo
       "Skipping storage account role assignments for dynamic provisioning")
   else
     key_operator_result <-
       run_command
         (role_assignment_cmd (identity_principal_id self)
            "Storage Account Key Operator Service Role"
            (storage_account_id self)) true ;;
     display_command_result key_operator_result
       "Storage Account Key Operator Service Role assigned to identity"
       "Failed to assign Storage Account Key Operator Service Role" false ;;
     let role_name :=
       match storage_type c with
       | BLOB => "Storage Blob Data Contributor"
       | FILE => "Storage File Data SMB Share Contributor"
       end in
     let role_description :=
       match storage_type c with
       | BLOB => "Blob Data Contributor role"
       | FILE => "File Data SMB Share Contributor role"
       end in
     data_role_result <-
       run_command
         (role_assignment_cmd (identity_principal_id self) role_name
            (storage_account_id self)) true ;;
     display_command_result data_role_result
       (role_description ++ " assigned to identity")
       ("Failed to assign " ++ role_description) false) ;;
  node_rg_result <-
    run_command
      ["az"; "aks"; "show"; "--name"; cluster_name c;
       "--resource-group"; resource_group c;
       "--query"; "nodeResourceGroup"; "-o"; "tsv"] false ;;
  let node_resource_group := PyStr.strip (stdout node_rg_result) in
  node_rg_id_result <-
    run_command
      ["az"; "group"; "show"; "--name"; node_resource_group;
       "--query"; "id"; "-o"; "tsv"] false ;;
  let node_rg_id := PyStr.strip (stdout node_rg_id_result) in
  (if PyStr.truthy node_rg_id then
     reader_role_result <-
       run_command
         (role_assignment_cmd (identity_principal_id self) "Reader"
            node_rg_id) true ;;
     display_command_result reader_role_result
       ("Reader role assigned to identity on node resource group: "
        ++ node_resource_group)
       "Failed to assign Reader role on node resource group" false
   else ret tt) ;;
  print (MsgInfo ("Required roles assigned to identity: "
                  ++ identity_name c)).

(** *** Step 5: [create_aks_cluster] *)

Definition create_aks_cluster (self : AzureManager) : M AzureManager :=
  let c := config self in
  let cmd :=
    ["az"; "aks"; "create"; "--resource-group"; resource_group c;
     "--name"; cluster_name c; "--location"; location c;
     "--node-count"; "1"; "--enable-managed-identity";
     "--enable-oidc-issuer"; "--enable-workload-identity"]
    ++ (if StorageType_eqb (storage_type c) BLOB
        then ["--enable-blob-driver"] else []) in
  create_result <- run_command cmd true ;;
  display_command_result create_result
    ("AKS cluster created: " ++ cluster_name c)
    ("Failed to create AKS cluster: " ++ cluster_name c) false ;;
  cred_result <-
    run_command
      ["az"; "aks"; "get-credentials"; "--resource-group"; resource_group c;
       "--name"; cluster_name c; "--overwrite-existing"] true ;;
  display_command_result cred_result
    "AKS credentials obtained successfully"
    "Failed to get AKS credentials" false ;;
  oidc_result <-
    run_command
      ["az"; "aks"; "show"; "--name"; cluster_name c;
       "--resource-group"; resource_group c;
       "--query"; "oidcIssuerProfile.issuerUrl"; "--output"; "tsv"] true ;;
  ret (set_oidc_issuer_url (PyStr.strip (stdout oidc_result)) self).

(** *** Steps 6 and 7: manifests *)

(** [subprocess.run(["kubectl", "apply", "-f", temp_file.name])] and the
    branch on its return code, as the three [with] blocks have it. *)
Definition kubectl_apply (temp_file : nat) (what : string) : M unit :=
  result <- subprocess_run ["kubectl"; "apply"; "-f"; tmp_name temp_file] ;;
  if succeeded result then
    print (MsgSuccess (what ++ " created successfully"))
  else
    print (MsgError ("Failed to create " ++ what)) ;;
    when (PyStr.truthy (stderr result)
          && PyStr.truthy (PyStr.strip (stderr result)))
      (print (MsgErrorOutput (PyStr.strip (stderr result)))) ;;
    print MsgKubectlTerminated ;;
    raise (Exit 1).

Definition federated_credential_cmd (self : AzureManager) : list string :=
  ["az"; "identity"; "federated-credential"; "create";
   "--name"; "storage-credential";
   "--identity-name"; identity_name (config self);
   "--resource-group"; resource_group (config self);
   "--issuer"; oidc_issuer_url self;
   "--subject"; "system:serviceaccount:default:storage-sa";
   "--audience"; "api://AzureADTokenExchange"].

(** [configure_workload_identity] *)
Definition configure_workload_identity (self : AzureManager) : M unit :=
  let sa_yaml := ServiceAccountYaml (identity_client_id self) in
  display_k8s_yaml sa_yaml ;;
  temp_file <- NamedTemporaryFile sa_yaml ;;
  print (MsgApplying "ServiceAccount for workload identity") ;;
  kubectl_apply temp_file "ServiceAccount" ;;
  subprocess_run (federated_credential_cmd self) ;;
  print (MsgInfo "Workload identity configured successfully").

(** The body of the two [for yaml_content, description in ...] loops. *)
Fixpoint apply_manifests (suffix : string)
    (items : list (Manifest * string)) : M unit :=
  match items with
  | [] => ret tt
  | (yaml_content, description) :: rest =>
      display_k8s_yaml yaml_content ;;
      temp_file <- NamedTemporaryFile yaml_content ;;
      print (MsgApplying (description ++ suffix)) ;;
      kubectl_apply temp_file description ;;
      unlink temp_file ;;
      apply_manifests suffix rest
  end.

Definition storage_type_name (st : StorageType) : string :=
  match st with BLOB => "blob" | FILE => "file" end.

Definition wait_cmd (job_name timeout : string) : list string :=
  ["kubectl"; "wait"; "--for=condition=complete"; ("job/" ++ job_name)%string;
   ("--timeout=" ++ timeout)%string].

Definition logs_cmd (job_name : string) : list string :=
  ["kubectl"; "logs"; ("job/" ++ job_name)%string].

(** The end of both functions: wait for the job, then show its logs. *)
Definition wait_for_job (job_name timeout done : string) : M unit :=
  wait_result <- subprocess_run (wait_cmd job_name timeout) ;;
  if negb (succeeded wait_result) then
    print MsgJobTimeout
  else
    logs_result <- subprocess_run (logs_cmd job_name) ;;
    print (MsgInfo done) ;;
    print (MsgTestResults (stdout logs_result)).

(** [configure_static_storage] *)
Definition configure_static_storage (self : AzureManager) : M unit :=
  let c := config self in
  let st := storage_type c in
  let target :=
    match st with
    | BLOB => blob_container_name self
    | FILE => file_share_name self
    end in
  let pv_yaml :=
    PersistentVolumeYaml st (resource_group c) (storage_account c) target
      (identity_client_id self) in
  let pvc_yaml := PersistentVolumeClaimYaml st PERSISTENT in
  let job_yaml := JobYaml st PERSISTENT in
  apply_manifests (" for " ++ storage_value st ++ " Storage")
    [(pv_yaml, "Persistent Volume");
     (pvc_yaml, "Persistent Volume Claim");
     (job_yaml, "Test Job")] ;;
  let job_name :=
    ("static-" ++ storage_type_name st ++ "-creator")%string in
  wait_for_job job_name "60s"
    ("Static " ++ storage_value st ++ " storage configured successfully").

(** [configure_dynamic_storage] *)
Definition configure_dynamic_storage (self : AzureManager) : M unit :=
  let c := config self in
  let st := storage_type c in
  let pvc_yaml := PersistentVolumeClaimYaml st DYNAMIC in
  let job_yaml := JobYaml st DYNAMIC in
  apply_manifests (" for " ++ storage_value st ++ " Storage (Dynamic)")
    [(pvc_yaml, "Persistent Volume Claim");
     (job_yaml, "Test Job")] ;;
  let job_name :=
    if StorageType_eqb st BLOB
    then ("dynamic-" ++ storage_type_name st ++ "-creator")%string
    else "dynamic-file-creator" in
  wait_for_job job_name "120s"
    ("Dynamic " ++ storage_value st ++ " storage configured successfully").

(** [show_summary] *)
Definition show_summary (c : Config) (keyless : bool) : M unit :=
  print (MsgSummary c keyless).

(** *** [main] *)

(** An entry of [all_use_cases]. *)
Record UseCase := {
  uc_storage : StorageType;
  uc_provision : ProvisionType;
  uc_name : string
}.

Definition all_use_cases : list UseCase :=
  [ {| uc_storage := BLOB; uc_provision := PERSISTENT;
       uc_name := "Blob-Static" |};
    {| uc_storage := BLOB; uc_provision := DYNAMIC;
       uc_name := "Blob-Dynamic" |};
    {| uc_storage := FILE; uc_provision := PERSISTENT;
       uc_name := "File-Static" |};
    {| uc_storage := FILE; uc_provision := DYNAMIC;
       uc_name := "File-Dynamic" |} ].

(** The three mode flags of [main]. *)
Record Modes := {
  run_all_cases : bool;
  run_all_storage_types : bool;
  run_all_provision_types : bool
}.

Definition is_none {A} (o : option A) : bool :=
  match o with None => true | Some _ => false end.

Definition is_some {A} (o : option A) : bool := negb (is_none o).

(** [storage is not None and storage != StorageType.BLOB] *)
Definition storage_conflict (storage : option StorageType) : bool :=
  match storage with
  | Some s => negb (StorageType_eqb s BLOB)
  | None => false
  end.

Definition provision_conflict (provision : option ProvisionType) : bool :=
  match provision with
  | Some p => negb (ProvisionType_eqb p PERSISTENT)
  | None => false
  end.

(** The first block of [main]: validation under [--disable-shared-key] and
    the choice of the mode flags. *)
Definition resolve_modes (storage : option StorageType)
    (provision : option ProvisionType) (disable_shared_key : bool)
  : M (option StorageType * option ProvisionType * Modes) :=
  if disable_shared_key then
    (if storage_conflict storage then
       print (MsgValidation
         "When --disable-shared-key is used, only Blob Storage is supported.") ;;
       raise (Exit 1)
     else ret tt) ;;
    (if provision_conflict provision then
       print (MsgValidation
         "When --disable-shared-key is used, only Static (Persistent) provisioning is supported.") ;;
       raise (Exit 1)
     else ret tt) ;;
    print (MsgInfo "Keyless Mode Restriction") ;;
    ret (Some BLOB, Some PERSISTENT,
         {| run_all_cases := false; run_all_storage_types := false;
            run_all_provision_types := false |})
  else
    ret (storage, provision,
         {| run_all_cases := is_none storage && is_none provision;
            run_all_storage_types := is_none storage && is_some provision;
            run_all_provision_types :=
              is_some storage && is_none provision |}).

(** "Set defaults for any missing parameters" *)
Definition default_storage (storage : option StorageType)
    (provision : option ProvisionType) : option StorageType :=
  if is_none storage && is_some provision then Some BLOB else storage.

Definition default_provision (storage : option StorageType)
    (provision : option ProvisionType) : option ProvisionType :=
  if is_none provision && is_some storage then Some PERSISTENT
  else provision.

(** "Filter use cases based on what's being run" *)
Definition select_use_cases (modes : Modes) (storage : option StorageType)
    (provision : option ProvisionType) : list UseCase :=
  if run_all_cases modes then all_use_cases
  else if run_all_storage_types modes then
    filter (fun case =>
              match provision with
              | Some p => ProvisionType_eqb (uc_provision case) p
              | None => false
              end) all_use_cases
  else if run_all_provision_types modes then
    filter (fun case =>
              match storage with
              | Some s => StorageType_eqb (uc_storage case) s
              | None => false
              end) all_use_cases
  else [].

(** The expression that both modes use for the keyless flag. *)
Definition keyless_support (storage : StorageType)
    (provision : ProvisionType) (allow_shared_key_access : bool) : bool :=
  if StorageType_eqb storage BLOB
     && ProvisionType_eqb provision PERSISTENT
     && negb allow_shared_key_access
  then true else false.

Definition multi_container_cmd (m : AzureManager) : list string :=
  ["az"; "storage"; "container"; "create";
   "--name"; blob_container_name m;
   "--account-name"; storage_account (config m)].

(** The [try] block of one use case. *)
Definition use_case_body (azure_manager : AzureManager)
    (case_config : Config) (case : UseCase) : M unit :=
  case_manager <- AzureManager_init case_config ;;
  let case_manager :=
    set_oidc_issuer_url (oidc_issuer_url azure_manager)
      (set_identity_principal_id (identity_principal_id azure_manager)
         (set_identity_client_id (identity_client_id azure_manager)
            case_manager)) in
  case_manager <-
    (match uc_provision case with
     | PERSISTENT =>
         let case_manager :=
           set_storage_account_id (storage_account_id azure_manager)
             case_manager in
         (match uc_storage case with
          | BLOB =>
              container_result <-
                subprocess_run (multi_container_cmd case_manager) ;;
              when (succeeded container_result)
                (print (MsgInfo ("Blob container created: "
                                 ++ blob_container_name case_manager)))
          | FILE =>
              share_result <-
                subprocess_run (share_create_cmd case_manager) ;;
              when (succeeded share_result)
                (print (MsgInfo ("File share created: "
                                 ++ file_share_name case_manager)))
          end) ;;
         print (MsgInfo ("Using shared storage account for "
                         ++ uc_name case)) ;;
         ret case_manager
     | DYNAMIC =>
         print (MsgInfo ("Using dynamic provisioning for " ++ uc_name case)) ;;
         ret case_manager
     end) ;;
  case_manager <-
    (if negb (PyStr.truthy (identity_client_id case_manager))
        || negb (PyStr.truthy (identity_principal_id case_manager))
     then
       print (MsgInfo ("Using identity IDs from base configuration for case "
                       ++ uc_name case)) ;;
       ret (set_oidc_issuer_url (oidc_issuer_url azure_manager)
              (set_identity_principal_id
                 (identity_principal_id azure_manager)
                 (set_identity_client_id (identity_client_id azure_manager)
                    case_manager)))
     else ret case_manager) ;;
  assign_roles case_manager ;;
  match uc_provision case with
  | PERSISTENT => configure_static_storage case_manager
  | DYNAMIC => configure_dynamic_storage case_manager
  end.

(** One iteration of [for i, case in enumerate(use_cases, 1)]: the row
    that it appends to [results]. *)
Definition case_config (group : string) (allow : bool)
    (base_config : Config) (case : UseCase) : Config :=
  let storage_account :=
    match uc_provision case with
    | PERSISTENT => storage_account base_config
    | DYNAMIC => ""
    end in
  Config_init (randomness env)
    {| d_group := group;
       d_storage_type := Some (uc_storage case);
       d_provision_type := Some (uc_provision case);
       d_unique_id := unique_id base_config;
       d_resource_group := resource_group base_config;
       d_storage_account := storage_account;
       d_identity_name := "";
       d_cluster_name := "";
       d_allow_shared_key_access := Some allow |}.

Definition run_use_case (group : string) (allow : bool)
    (base_config : Config) (azure_manager : AzureManager)
    (i : nat) (case : UseCase) : M ResultRow :=
  let keyless := keyless_support (uc_storage case) (uc_provision case) allow in
  let case_config := case_config group allow base_config case in
  print (MsgUseCase i (uc_name case)) ;;
  try_except
    (use_case_body azure_manager case_config case ;;
     ret {| row_case := uc_name case; row_success := true;
            row_keyless := keyless |})
    (fun e =>
       print (MsgCaseError (uc_name case) e) ;;
       ret {| row_case := uc_name case; row_success := false;
              row_keyless := keyless |}).

(** The [for] loop over the selected use cases; [results] accumulates. *)
Fixpoint run_use_cases (group : string) (allow : bool)
    (base_config : Config) (azure_manager : AzureManager)
    (i : nat) (use_cases : list UseCase) (results : list ResultRow)
  : M (list ResultRow) :=
  match use_cases with
  | [] => ret results
  | case :: rest =>
      row <- run_use_case group allow base_config azure_manager i case ;;
      run_use_cases group allow base_config azure_manager (S i) rest
        (results ++ [row])
  end.

(** The part of the multi-case [try] block that comes before the loop:
    the shared resource group, identity, cluster and storage account. *)
Definition shared_infrastructure (base_config : Config) (modes : Modes)
    (storage : option StorageType) (provision : option ProvisionType)
    (use_cases : list UseCase) : M AzureManager :=
  azure_manager <- AzureManager_init base_config ;;
  azure_manager <-
    (if run_all_cases modes then
       create_resource_group azure_manager true None
     else if run_all_storage_types modes then
       create_resource_group azure_manager false (Some (None, provision))
     else if run_all_provision_types modes then
       create_resource_group azure_manager false (Some (storage, None))
     else create_resource_group azure_manager false None) ;;
  azure_manager <- create_managed_identity azure_manager ;;
  azure_manager <- create_aks_cluster azure_manager ;;
  configure_workload_identity azure_manager ;;
  let needs_storage_account :=
    existsb (fun case => ProvisionType_eqb (uc_provision case) PERSISTENT)
      use_cases in
  if needs_storage_account then
    azure_manager <- create_storage_account azure_manager ;;
    verify_result <-
      subprocess_run (storage_show_cmd (config azure_manager) "name") ;;
    (if negb (PyStr.truthy (PyStr.strip (stdout verify_result)))
     then raise (PyException
                   ("Storage account " ++ storage_account (config azure_manager)
                    ++ " was not created successfully"))
     else ret tt) ;;
    account_id_result <-
      subprocess_run (storage_show_cmd (config azure_manager) "id") ;;
    print (MsgInfo ("Storage account created for static provisioning cases: "
                    ++ storage_account (config azure_manager))) ;;
    ret (set_storage_account_id (PyStr.strip (stdout account_id_result))
           azure_manager)
  else
    print (MsgInfo
      "Skipping storage account creation since all selected use cases use dynamic provisioning") ;;
    ret azure_manager.

(** The [base_config] of the multi-case mode. *)
Definition base_config (group : string) (disable_shared_key : bool)
  : Config :=
  Config_init (randomness env)
    (config_data group (Some BLOB) (Some PERSISTENT) ""
       (Some (negb disable_shared_key))).

(** "Handle running multiple use cases" *)
Definition multi_case (group : string) (storage : option StorageType)
    (provision : option ProvisionType) (disable_shared_key : bool)
    (modes : Modes) : M unit :=
  let allow := negb disable_shared_key in
  let use_cases := select_use_cases modes storage provision in
  let base_config := base_config group disable_shared_key in
  (if disable_shared_key && run_all_cases modes then
     print (MsgValidation
       "When --disable-shared-key is used, only Blob Storage with Static Provisioning is supported.") ;;
     raise (Exit 1)
   else ret tt) ;;
  try_except
    (azure_manager <-
       shared_infrastructure base_config modes storage provision use_cases ;;
     results <-
       run_use_cases group allow base_config azure_manager 1 use_cases [] ;;
     print (MsgResults results))
    (fun e => print (MsgFatal e) ;; raise (Exit 1)).

(** The [config] of the single-case mode. *)
Definition single_config (group : string) (storage : StorageType)
    (provision : ProvisionType) (disable_shared_key : bool) : Config :=
  Config_init (randomness env)
    (config_data group (Some storage) (Some provision) ""
       (Some (negb disable_shared_key))).

(** "Handle single use case mode" *)
Definition single_case (group : string) (storage : option StorageType)
    (provision : option ProvisionType) (disable_shared_key : bool)
  : M unit :=
  let allow := negb disable_shared_key in
  let storage := match storage with Some s => s | None => BLOB end in
  let provision :=
    match provision with Some p => p | None => PERSISTENT end in
  let keyless := keyless_support storage provision allow in
  when (negb allow)
    (if StorageType_eqb storage FILE then
       print (MsgInfo "Warning: Azure Files does not support keyless access.")
     else if StorageType_eqb storage BLOB
             && ProvisionType_eqb provision DYNAMIC then
       print (MsgInfo
         "Warning: Dynamic provisioning for Azure Blob storage does not support keyless access.")
     else ret tt) ;;
  let config := single_config group storage provision disable_shared_key in
  try_except
    (azure_manager <- AzureManager_init config ;;
     azure_manager <- create_resource_group azure_manager false None ;;
     azure_manager <- create_managed_identity azure_manager ;;
     azure_manager <- create_storage_account azure_manager ;;
     assign_roles azure_manager ;;
     azure_manager <- create_aks_cluster azure_manager ;;
     configure_workload_identity azure_manager ;;
     (match provision_type config with
      | PERSISTENT => configure_static_storage azure_manager
      | DYNAMIC => configure_dynamic_storage azure_manager
      end) ;;
     show_summary config keyless ;;
     print (MsgSuccess
       "AKS Storage integration has been successfully configured and tested!"))
    (fun e => print (MsgFatal e) ;; raise (Exit 1)).

Definition main (group : string) (storage : option StorageType)
    (provision : option ProvisionType) (disable_shared_key : bool)
  : M unit :=
  r <- resolve_modes storage provision disable_shared_key ;;
  let '(storage, provision, modes) := r in
  let storage := default_storage storage provision in
  let provision := default_provision storage provision in
  if run_all_cases modes || run_all_storage_types modes
     || run_all_provision_types modes
  then multi_case group storage provision disable_shared_key modes
  else single_case group storage provision disable_shared_key.

End Script.
(** * Vocabulary of the properties *)

(** The resource names of a configuration. *)
Definition names (c : Config) : string * string * string * string :=
  (resource_group c, storage_account c, identity_name c, cluster_name c).

(** The storage type and provision type of the use cases, without names. *)
Definition pairs (l : list UseCase) : list (StorageType * ProvisionType) :=
  map (fun c => (uc_storage c, uc_provision c)) l.


(** [argv] begins with the words of [prefix]. *)
Fixpoint starts_with (prefix argv : list string) : bool :=
  match prefix, argv with
  | [], _ => true
  | _ :: _, [] => false
  | p :: ps, a :: rest => String.eqb p a && starts_with ps rest
  end.

(** The commands whose return code the single-case run tests right after
    the call. *)
Definition checked_commands : list (list string) :=
  [ ["az"; "group"; "create"];
    ["az"; "identity"; "create"];
    ["az"; "storage"; "container"; "create"];
    ["az"; "storage"; "share"; "create"];
    ["az"; "role"; "assignment"; "create"];
    ["az"; "aks"; "create"];
    ["az"; "aks"; "get-credentials"];
    ["kubectl"; "apply"] ].

Definition checked (argv : list string) : bool :=
  existsb (fun p => starts_with p argv) checked_commands.

Definition is_run (e : Event) : bool :=
  match e with ERun _ _ => true | _ => false end.

(** A checked command that returned a non-zero code. *)
Definition failed_check (e : Event) : bool :=
  match e with
  | ERun argv r => checked argv && negb (succeeded r)
  | _ => false
  end.

Definition no_runs (l : list Event) : bool :=
  forallb (fun e => negb (is_run e)) l.

(** The first failed check of a log, if there is one, comes with an
    exception ([raised]) and is followed by no other command. *)
Fixpoint abort_okb (raised : bool) (l : list Event) : bool :=
  match l with
  | [] => true
  | e :: t =>
      if failed_check e then raised && no_runs t else abort_okb raised t
  end.

Definition aborts {A} (o : Out A) : Prop :=
  abort_okb (negb (is_ok (res o))) (log o) = true.

(** The argument vectors of the commands of a log, in order. *)
Definition commands (l : list Event) : list (list string) :=
  flat_map (fun e => match e with ERun argv _ => [argv] | _ => [] end) l.

(** The handler of both [try] blocks of [main]. *)
Definition fatal {A} (e : Exn) : M A := print (MsgFatal e) ;; raise (Exit 1).

(** Every event that [m] logs satisfies [P], from any state. *)
Definition always {A} (P : Event -> Prop) (m : M A) : Prop :=
  forall s, Forall P (log (m s)).

Definition is_sleep (e : Event) : bool :=
  match e with ESleep _ => true | _ => false end.

(** The events of a provisioning step: commands, temporary files, sleeps
    and the messages of the step functions; not the messages of [main]. *)
Definition step_event (e : Event) : bool :=
  match e with
  | EPrint (MsgValidation _) | EPrint (MsgUseCase _ _)
  | EPrint (MsgCaseError _ _) | EPrint (MsgResults _)
  | EPrint (MsgSummary _ _) | EPrint (MsgFatal _) => false
  | _ => true
  end.

(** A step event other than a sleep. *)
Definition plain_event (e : Event) : bool :=
  step_event e && negb (is_sleep e).

Definition is_plain (e : Event) : Prop := plain_event e = true.
Definition is_step (e : Event) : Prop := step_event e = true.

(** A summary table shows the keyless flag exactly for blob storage with
    static provisioning and shared keys disabled. *)
Definition summary_ok (e : Event) : Prop :=
  match e with
  | EPrint (MsgSummary c k) =>
      k = true <->
      storage_type c = BLOB /\ provision_type c = PERSISTENT
      /\ allow_shared_key_access c = false
  | _ => True
  end.

(** ** Concrete worlds *)

Definition completed (rc : Z) (out : string) : CompletedProcess :=
  {| returncode := rc; stdout := out; stderr := "" |}.

(** Every command succeeds and prints [ok]. *)
Definition all_fine : World :=
  {| run_result := fun _ _ => completed 0 "ok";
     randomness := fun n => n |}.

(** As [all_fine], but the commands that begin with one of [prefixes]
    return the code 1 and print nothing. *)
Definition failing_all (prefixes : list (list string)) : World :=
  {| run_result :=
       fun _ argv =>
         if existsb (fun p => starts_with p argv) prefixes
         then completed 1 "" else completed 0 "ok";
     randomness := fun n => n |}.

Definition failing (prefix : list string) : World := failing_all [prefix].


(** A manager for [c] that has discovered nothing yet. *)
Definition fresh_manager (c : Config) : AzureManager :=
  {| config := c; subscription_id := ""; resource_group_id := "";
     storage_account_id := ""; identity_principal_id := "";
     identity_client_id := ""; oidc_issuer_url := "";
     blob_container_name := "mycontainer"; file_share_name := "myshare" |}.

(** [P] holds of an outcome; a marker that keeps the outcome in one place
    during symbolic execution. *)
Definition holds {A} (P : Out A -> Prop) (o : Out A) : Prop := P o.

(** ** Vocabulary of the retry loop *)

(** What a log shows of the creation loop: each [az storage account create]
    with its outcome, and each sleep. *)
Inductive Attempt :=
| Try (ok : bool)
| Wait (seconds : Z).

Definition is_create (argv : list string) : bool :=
  starts_with ["az"; "storage"; "account"; "create"] argv.

(** The test of the loop on the result of a creation. *)
Definition attempt_ok (r : CompletedProcess) : bool :=
  succeeded r && PyStr.truthy (PyStr.strip (stdout r)).

Definition retry_shape (l : list Event) : list Attempt :=
  flat_map (fun e =>
              match e with
              | ERun argv r => if is_create argv then [Try (attempt_ok r)] else []
              | ESleep n => [Wait n]
              | _ => []
              end) l.

(** The test on the first [az storage account show]. *)
Definition account_exists (env : World) (self : AzureManager) (s : St)
  : bool :=
  let check_exists :=
    run_result env (calls s) (storage_show_cmd (config self) "name") in
  succeeded check_exists && PyStr.truthy (PyStr.strip (stdout check_exists)).

(** The exception that the loop raises after its last attempt. *)
Definition creation_failed {A} (r : Res A) : bool :=
  match r with
  | Raise (PyException m) =>
      String.prefix "Failed to create storage account after 3 attempts" m
  | _ => false
  end.

(** [m] with its result forgotten. *)
Definition void {A} (m : M A) : M unit := m ;; ret tt.

(** The steps of the script other than [create_storage_account]. *)
Definition other_steps (env : World) (self : AzureManager)
    (all_use_cases : bool) (use_cases_filter : option Filter)
  : list (M unit) :=
  [ void (AzureManager_init env (config self));
    void (create_resource_group env self all_use_cases use_cases_filter);
    void (create_managed_identity env self);
    assign_roles env self;
    void (create_aks_cluster env self);
    configure_workload_identity env self;
    configure_static_storage env self;
    configure_dynamic_storage env self ].

(** ** Vocabulary for the loop over the use cases *)

(** The iterations of the loop over [cases]: the number, the use case and
    the state in which each iteration starts. *)
Fixpoint attempts (env : World) (group : string) (allow : bool)
    (base : Config) (mgr : AzureManager) (i : nat) (cases : list UseCase)
    (s : St) : list (nat * UseCase * St) :=
  match cases with
  | [] => []
  | case :: rest =>
      (i, case, s)
      :: attempts env group allow base mgr (S i) rest
           (st (run_use_case env group allow base mgr i case s))
  end.

(** What the [try] block of an iteration does in the state it starts in. *)
Definition attempt_body (env : World) (group : string) (allow : bool)
    (base : Config) (mgr : AzureManager) (a : nat * UseCase * St)
  : Out unit :=
  let '(_, case, s) := a in
  use_case_body env mgr (case_config env group allow base case) case s.

(** The console and command log of an iteration: the header, the log of
    the [try] block and, when the block raised, the error line. *)
Definition attempt_log (env : World) (group : string) (allow : bool)
    (base : Config) (mgr : AzureManager) (a : nat * UseCase * St)
  : list Event :=
  let '(i, case, _) := a in
  EPrint (MsgUseCase i (uc_name case))
  :: log (attempt_body env group allow base mgr a)
     ++ match res (attempt_body env group allow base mgr a) with
        | Ok _ => []
        | Raise e => [EPrint (MsgCaseError (uc_name case) e)]
        end.

(** The row of the summary table for an iteration. *)
Definition attempt_row (env : World) (group : string) (allow : bool)
    (base : Config) (mgr : AzureManager) (a : nat * UseCase * St)
  : ResultRow :=
  let '(_, case, _) := a in
  {| row_case := uc_name case;
     row_success := is_ok (res (attempt_body env group allow base mgr a));
     row_keyless :=
       keyless_support (uc_storage case) (uc_provision case) allow |}.

(** ** Vocabulary of the job timeout *)






Definition never_raises {A} (m : M A) : Prop :=
  forall s, is_ok (res (m s)) = true.


(** ** Vocabulary of the temporary files *)



(** ** Vocabulary of the end of a run *)

(** Every command returns 0 and prints something that is not blank. *)
Definition cooperative (env : World) : Prop :=
  forall n argv,
    succeeded (run_result env n argv) = true
    /\ PyStr.truthy (PyStr.strip (stdout (run_result env n argv))) = true.

Definition is_account_create (e : Event) : bool :=
  match e with
  | ERun argv _ => starts_with ["az"; "storage"; "account"; "create"] argv
  | _ => false
  end.

(** Neither a sleep nor a creation of the storage account. *)
Definition quiet (e : Event) : Prop :=
  is_sleep e = false /\ is_account_create e = false.

(** When [m] returns, its log ends with [suffix]. *)
Definition finishes {A} (suffix : list Event) (m : M A) : Prop :=
  forall s, is_ok (res (m s)) = true ->
            exists l, log (m s) = l ++ suffix.

(** The last two lines of a single-case run that completes. *)
Definition closing_lines (c : Config) (keyless : bool) : list Event :=
  [EPrint (MsgSummary c keyless);
   EPrint (MsgSuccess
     "AKS Storage integration has been successfully configured and tested!")].

(** ** Vocabulary of the tags of the resource group *)

(** The tag that stands for a use case. *)
Definition use_case_tag (c : UseCase) : string :=
  match uc_storage c, uc_provision c with
  | BLOB, PERSISTENT => "UseCase1=Blob Storage with Static Provisioning"
  | BLOB, DYNAMIC => "UseCase2=Blob Storage with Dynamic Provisioning"
  | FILE, PERSISTENT => "UseCase3=File Storage with Static Provisioning"
  | FILE, DYNAMIC => "UseCase4=File Storage with Dynamic Provisioning"
  end.

(** The words that follow [--tags] in an [az group create] command. *)
Definition group_tags_of (e : Event) : list (list string) :=
  match e with
  | ERun argv _ =>
      if starts_with ["az"; "group"; "create"] argv
      then [skipn 8 argv] else []
  | _ => []
  end.

Definition group_tags (l : list Event) : list (list string) :=
  flat_map group_tags_of l.

Definition no_group (e : Event) : Prop := group_tags_of e = [].

(** The mode flags select a dimension that was given on the command
    line, as [main] arranges it. *)
Definition modes_fit (modes : Modes) (storage : option StorageType)
    (provision : option ProvisionType) : bool :=
  if run_all_cases modes then true
  else if run_all_storage_types modes then is_some provision
  else if run_all_provision_types modes then is_some storage
  else false.

(** ** Vocabulary of the dynamic use cases *)

(** An event that touches no storage account: not an [az storage] command,
    and not a role assignment other than the Reader role. *)
Definition storage_free (e : Event) : Prop :=
  match e with
  | ERun argv _ =>
      starts_with ["az"; "storage"] argv = false
      /\ (starts_with ["az"; "role"; "assignment"; "create"] argv = true ->
          nth 7 argv "" = "Reader")
  | _ => True
  end.

(** ** Vocabulary of the use cases that a run starts *)

(** The headers [Use Case i: ...] of a log: number and name, in order. *)
Definition headers_of (e : Event) : list (nat * string) :=
  match e with
  | EPrint (MsgUseCase i name) => [(i, name)]
  | _ => []
  end.

Definition headers (l : list Event) : list (nat * string) :=
  flat_map headers_of l.

(** The names numbered from [i] on, as [enumerate(use_cases, i)] does. *)
Fixpoint numbered (i : nat) (names : list string) : list (nat * string) :=
  match names with
  | [] => []
  | n :: rest => (i, n) :: numbered (S i) rest
  end.

(** The run [o] goes through [cases] and nothing else: the headers it
    prints are the first ones of [cases], in order and numbered from 1;
    when it returns it has started every one of them, and the last thing
    it printed is a table with one row for each, in the same order. *)
Definition runs_selected (o : Out unit) (cases : list UseCase) : Prop :=
  (exists rest,
      numbered 1 (map uc_name cases) = headers (log o) ++ rest)
  /\ (res o = Ok tt ->
      headers (log o) = numbered 1 (map uc_name cases)
      /\ exists rows,
           last (log o) (ESleep 0) = EPrint (MsgResults rows)
           /\ map row_case rows = map uc_name cases).

(** ** Vocabulary of the use case that a single-case run serves *)

(** The manifest [y] belongs to the use case of [c]. *)
Definition own_manifest (c : Config) (y : Manifest) : Prop :=
  match y with
  | ServiceAccountYaml _ => True
  | PersistentVolumeYaml st rg account _ _ =>
      st = storage_type c /\ provision_type c = PERSISTENT
      /\ rg = resource_group c /\ account = storage_account c
  | PersistentVolumeClaimYaml st pt =>
      st = storage_type c /\ pt = provision_type c
  | JobYaml st pt => st = storage_type c /\ pt = provision_type c
  end.

(** The name of the verification job of a use case. *)
Definition job_of (st : StorageType) (pt : ProvisionType) : string :=
  match st, pt with
  | BLOB, PERSISTENT => "job/static-blob-creator"
  | FILE, PERSISTENT => "job/static-file-creator"
  | BLOB, DYNAMIC => "job/dynamic-blob-creator"
  | FILE, DYNAMIC => "job/dynamic-file-creator"
  end.

(** The event [e] belongs to a run for the one use case of [c]: it is no
    header, error line or table of the multi-case mode; a summary is the
    summary of [c] with the flag [keyless]; a manifest is one of the use
    case; the resource group is tagged with the use case (and with
    [KeyAccess=disabled] when shared keys are off); a job that is waited
    for is the job of the use case. *)
Definition serves (c : Config) (keyless : bool) (e : Event) : Prop :=
  match e with
  | EPrint (MsgUseCase _ _) | EPrint (MsgCaseError _ _)
  | EPrint (MsgResults _) => False
  | EPrint (MsgSummary c' k) => c' = c /\ k = keyless
  | ETmpCreate _ y => own_manifest c y
  | ERun argv _ =>
      (starts_with ["az"; "group"; "create"] argv = true ->
       skipn 8 argv
       = use_case_tag {| uc_storage := storage_type c;
                         uc_provision := provision_type c; uc_name := "" |}
         :: (if allow_shared_key_access c then []
             else ["KeyAccess=disabled"]))
      /\ (starts_with ["kubectl"; "wait"] argv = true ->
          nth 3 argv "" = job_of (storage_type c) (provision_type c))
  | _ => True
  end.

(** The manifests written to temporary files, in order. *)
Definition manifests (l : list Event) : list Manifest :=
  flat_map (fun e => match e with ETmpCreate _ y => [y] | _ => [] end) l.

(** [m] hands on a manager of the configuration it was given. *)
Definition keeps_config (c : Config) (m : M AzureManager) : Prop :=
  forall s a, res (m s) = Ok a -> config a = c.
(** * Properties *)

(** ** Strings *)

Lemma take_length (n : nat) (s : string) :
  String.length (PyStr.take n s) <= n.
Proof.
  revert s; induction n as [|n IH]; intros [|c r]; simpl; try lia.
  specialize (IH r); lia.
Qed.

Lemma remove_hyphens_clean (s : string) :
  PyStr.contains "-"%char (PyStr.remove_hyphens s) = false.
Proof.
  induction s as [|c r IH]; simpl; [reflexivity|].
  destruct (Ascii.eqb c "-"%char) eqn:E; [exact IH|].
  cbn [PyStr.contains]. rewrite Ascii.eqb_sym, E. exact IH.
Qed.

Lemma take_contains (c : ascii) (n : nat) (s : string) :
  PyStr.contains c s = false -> PyStr.contains c (PyStr.take n s) = false.
Proof.
  revert s; induction n as [|n IH]; intros [|d r]; simpl; auto.
  intros H. apply orb_false_iff in H as [H1 H2].
  rewrite H1; simpl; auto.
Qed.

Lemma random_choices_length (gen : nat -> nat) (k : nat) :
  String.length (random_choices gen k) = k.
Proof. induction k; simpl; congruence. Qed.

(** C4: with the derived names left out of the call, the names of a
    configuration are given by the group and the unique identifier (the one
    supplied, or the six random characters), whatever the storage type, the
    provision type and the shared-key flag; the storage-account name is the
    first 24 characters of [<group><id>sa] without its hyphens, so has at
    most 24 characters and no hyphen. *)
Theorem derived_names (gen : nat -> nat) (g uid : string)
    (st : option StorageType) (pt : option ProvisionType) (a : option bool) :
  let c := Config_init gen (config_data g st pt uid a) in
  unique_id c = (if PyStr.truthy uid then uid else random_choices gen 6)
  /\ resource_group c = (g ++ "-" ++ unique_id c ++ "-rg")%string
  /\ identity_name c = (g ++ "-" ++ unique_id c ++ "-identity")%string
  /\ cluster_name c = (g ++ "-" ++ unique_id c ++ "-aks")%string
  /\ storage_account c
     = PyStr.take 24 (PyStr.remove_hyphens (g ++ unique_id c ++ "sa")%string)
  /\ String.length (storage_account c) <= 24
  /\ PyStr.contains "-"%char (storage_account c) = false
  /\ (forall st' pt' a',
        names (Config_init gen (config_data g st' pt' uid a')) = names c).
Proof.
  intros c.
  assert (Hsa : storage_account c
                = PyStr.take 24
                    (PyStr.remove_hyphens (g ++ unique_id c ++ "sa")%string))
    by reflexivity.
  repeat split; try reflexivity.
  - rewrite Hsa; apply take_length.
  - rewrite Hsa; apply take_contains, remove_hyphens_clean.
Qed.

(** ** The resolution of the command-line flags *)

Lemma StorageType_eqb_eq (a b : StorageType) :
  StorageType_eqb a b = true <-> a = b.
Proof. destruct a, b; simpl; split; intros H; try reflexivity; discriminate H. Qed.

Lemma ProvisionType_eqb_eq (a b : ProvisionType) :
  ProvisionType_eqb a b = true <-> a = b.
Proof. destruct a, b; simpl; split; intros H; try reflexivity; discriminate H. Qed.

Lemma keyless_support_spec (st : StorageType) (pt : ProvisionType)
    (allow : bool) :
  keyless_support st pt allow = true
  <-> st = BLOB /\ pt = PERSISTENT /\ allow = false.
Proof.
  destruct st, pt, allow; cbv; split; intros H; try (repeat split; reflexivity);
    try discriminate H; destruct H as (H1 & H2 & H3); discriminate.
Qed.

Lemma out_eta {A} (o : Out A) : mkOut (log o) (st o) (res o) = o.
Proof. destruct o; reflexivity. Qed.

Lemma bind_ret_l {A B} (a : A) (f : A -> M B) (s : St) :
  bind (ret a) f s = f a s.
Proof. unfold bind, ret. destruct (f a s); reflexivity. Qed.

(** ** Symbolic execution of a step *)

Ltac unfold_script :=
  unfold AzureManager_init, get_subscription_id, kubectl_apply,
    wait_for_job, show_summary, display_command_result, display_k8s_yaml,
    run_command, subprocess_run, NamedTemporaryFile, unlink,
    when, print, sleep, emit, bind, try_except, ret, raise in *.

Ltac name_results :=
  repeat match goal with
    | |- context[run_result ?env ?n ?a] =>
        let r := fresh "r" in remember (run_result env n a) as r
    end.

Ltac recall_results :=
  repeat match goal with
    | H : ?r = run_result _ _ _ |- _ => rewrite <- H in *; clear H
    end.

Ltac find_split x :=
  lazymatch x with
  | if ?c then _ else _ => find_split c
  | match ?c with _ => _ end => find_split c
  | (if ?c then _ else _) _ => find_split c
  | (match ?c with _ => _ end) _ => find_split c
  | negb ?d => find_split d
  | andb ?a _ => find_split a
  | orb ?a _ => find_split a
  | res ?o => find_split o
  | _ => destruct x eqn:?
  end.

Ltac blocked x :=
  lazymatch x with
  | if _ then _ else _ => find_split x
  | match _ with _ => _ end => find_split x
  | (if _ then _ else _) _ => find_split x
  | (match _ with _ => _ end) _ => find_split x
  end.

Ltac split_path :=
  match goal with
  | |- holds _ ?x => blocked x
  | |- context[aborts ?x] => blocked x
  | |- context[log ?x] => blocked x
  | |- context[res ?x] => blocked x
  | |- context[st ?x] => blocked x
  end.

Ltac reduce_script :=
  cbn [log st res is_ok negb andb orb app calls tmp_next tmp_files
       PyStr.truthy String.append fst snd retry_loop apply_manifests
       max_retries Nat.ltb Nat.leb rs_self rs_retry_count rs_success
       rs_storage_result
       AzureManager_init get_subscription_id kubectl_apply wait_for_job
       show_summary display_command_result display_k8s_yaml run_command
       subprocess_run NamedTemporaryFile unlink when print sleep emit bind
       try_except ret raise].

Ltac normalize :=
  repeat (progress (unfold_script; reduce_script)); name_results.

Ltac run_paths := normalize; repeat (split_path; normalize).

Ltac use_results :=
  repeat match goal with
    | H : succeeded _ = _ |- _ => rewrite H; clear H
    end.

(** ** A failed check aborts the step *)

Ltac aborts_by_paths :=
  unfold_script; run_paths; unfold aborts; cbn; use_results; reflexivity.

Lemma AzureManager_init_aborts env c s : aborts (AzureManager_init env c s).
Proof. aborts_by_paths. Qed.

Lemma create_resource_group_aborts env self a f s :
  aborts (create_resource_group env self a f s).
Proof. unfold create_resource_group. aborts_by_paths. Qed.

Lemma create_managed_identity_aborts env self s :
  aborts (create_managed_identity env self s).
Proof. unfold create_managed_identity. aborts_by_paths. Qed.

Lemma create_storage_account_aborts env self s :
  aborts (create_storage_account env self s).
Proof. unfold create_storage_account. aborts_by_paths. Qed.

Lemma assign_roles_aborts env self s : aborts (assign_roles env self s).
Proof. unfold assign_roles. aborts_by_paths. Qed.

Lemma create_aks_cluster_aborts env self s :
  aborts (create_aks_cluster env self s).
Proof. unfold create_aks_cluster. aborts_by_paths. Qed.

Lemma configure_workload_identity_aborts env self s :
  aborts (configure_workload_identity env self s).
Proof. unfold configure_workload_identity. aborts_by_paths. Qed.

Lemma configure_static_storage_aborts env self s :
  aborts (configure_static_storage env self s).
Proof. unfold configure_static_storage. aborts_by_paths. Qed.

Lemma configure_dynamic_storage_aborts env self s :
  aborts (configure_dynamic_storage env self s).
Proof. unfold configure_dynamic_storage. aborts_by_paths. Qed.

(** ** Composition of aborting steps *)

Lemma failed_check_is_run (e : Event) :
  failed_check e = true -> is_run e = true.
Proof. destruct e; simpl; intros H; try discriminate H; reflexivity. Qed.

Lemma no_runs_abort_okb (raised : bool) (l : list Event) :
  no_runs l = true -> abort_okb raised l = true.
Proof.
  induction l as [|e t IH]; simpl; [reflexivity|].
  intros H. apply andb_true_iff in H as [He Ht].
  destruct (failed_check e) eqn:F; [|auto].
  apply failed_check_is_run in F. rewrite F in He. discriminate He.
Qed.

Lemma abort_okb_clean_app (raised : bool) (l1 l2 : list Event) :
  abort_okb false l1 = true ->
  abort_okb raised (l1 ++ l2) = abort_okb raised l2.
Proof.
  induction l1 as [|e t IH]; simpl; [reflexivity|].
  destruct (failed_check e); [discriminate|exact IH].
Qed.

Lemma abort_okb_raised_app (l1 l2 : list Event) :
  abort_okb true l1 = true -> no_runs l2 = true ->
  abort_okb true (l1 ++ l2) = true.
Proof.
  intros H1 H2. induction l1 as [|e t IH]; simpl in *.
  - apply no_runs_abort_okb, H2.
  - destruct (failed_check e); [|auto].
    unfold no_runs in *. rewrite forallb_app, H1, H2. reflexivity.
Qed.

Lemma abort_okb_false_true (l : list Event) :
  abort_okb false l = true -> abort_okb true l = true.
Proof.
  induction l as [|e t IH]; simpl; [reflexivity|].
  destruct (failed_check e); [discriminate|exact IH].
Qed.

(** What [abort_okb] says, on the events themselves. *)
Lemma abort_okb_spec (raised : bool) (l : list Event) :
  abort_okb raised l = true ->
  forall pre e post, l = pre ++ e :: post -> failed_check e = true ->
    raised = true /\ no_runs post = true.
Proof.
  induction l as [|x t IH]; intros H pre e post E F.
  - destruct pre; discriminate E.
  - destruct pre as [|y pre]; simpl in E; injection E as -> ->.
    + simpl in H. rewrite F in H. apply andb_true_iff in H. exact H.
    + simpl in H. destruct (failed_check y) eqn:Fy.
      * apply andb_true_iff in H as [_ H]. unfold no_runs in H.
        rewrite forallb_app in H. apply andb_true_iff in H as [_ H].
        simpl in H. rewrite (failed_check_is_run _ F) in H. discriminate H.
      * eapply IH; eauto.
Qed.

Lemma aborts_bind {A B} (m : M A) (f : A -> M B) (s : St) :
  aborts (m s) -> (forall a s', aborts (f a s')) -> aborts (bind m f s).
Proof.
  unfold aborts, bind. intros Hm Hf.
  destruct (m s) as [l1 s1 [a|e]]; simpl in *; [|exact Hm].
  specialize (Hf a s1). destruct (f a s1) as [l2 s2 r]; simpl in *.
  rewrite abort_okb_clean_app; assumption.
Qed.

Lemma aborts_try_fatal {A} (m : M A) (s : St) :
  aborts (m s) -> aborts (try_except m fatal s).
Proof.
  unfold aborts, try_except, fatal. intros Hm.
  destruct (m s) as [l1 s1 [a|e]]; simpl in *; [exact Hm|].
  apply abort_okb_raised_app; [exact Hm|reflexivity].
Qed.

Lemma try_fatal_res {A} (m : M A) (s : St) :
  (exists a, res (try_except m fatal s) = Ok a)
  \/ res (try_except m fatal s) = Raise (Exit 1).
Proof.
  unfold try_except, fatal.
  destruct (m s) as [l1 s1 [a|e]]; simpl; eauto.
Qed.

Lemma single_case_aborts env g st pt dsk s :
  aborts (single_case env g st pt dsk s).
Proof.
  unfold single_case.
  apply aborts_bind; [aborts_by_paths|intros _ s0].
  apply (aborts_try_fatal _ s0).
  apply aborts_bind; [apply AzureManager_init_aborts|intros m1 s1].
  apply aborts_bind; [apply create_resource_group_aborts|intros m2 s2].
  apply aborts_bind; [apply create_managed_identity_aborts|intros m3 s3].
  apply aborts_bind; [apply create_storage_account_aborts|intros m4 s4].
  apply aborts_bind; [apply assign_roles_aborts|intros _ s5].
  apply aborts_bind; [apply create_aks_cluster_aborts|intros m6 s6].
  apply aborts_bind; [apply configure_workload_identity_aborts|intros _ s7].
  apply aborts_bind.
  - destruct (provision_type _);
      [apply configure_static_storage_aborts
      |apply configure_dynamic_storage_aborts].
  - intros _ s8. aborts_by_paths.
Qed.

Lemma single_case_res env g st pt dsk s :
  res (single_case env g st pt dsk s) = Ok tt
  \/ res (single_case env g st pt dsk s) = Raise (Exit 1).
Proof.
  unfold single_case.
  match goal with
  | |- context[bind ?w (fun _ => try_except ?m _)] =>
      set (pre := w); set (body := m)
  end.
  change (fun e : Exn => print (MsgFatal e);; raise (Exit 1))
    with (@fatal unit).
  unfold bind.
  assert (Hpre : exists l, pre s = mkOut l s (Ok tt)).
  { subst pre. unfold when. destruct (negb (negb dsk)); [|eexists; reflexivity].
    destruct (StorageType_eqb _ FILE); [eexists; reflexivity|].
    destruct (_ && _); eexists; reflexivity. }
  destruct Hpre as [l ->].
  destruct (try_fatal_res body s) as [[[] H]|H];
    destruct (try_except body fatal s) as [l2 s2 r2]; simpl in *; auto.
Qed.

(** ** Properties of every logged event *)

Section Always.

Context {P : Event -> Prop}.

Lemma always_ret {A} (a : A) : always P (ret a).
Proof. intros s; constructor. Qed.

Lemma always_raise {A} (e : Exn) : always P (@raise A e).
Proof. intros s; constructor. Qed.

Lemma always_emit (e : Event) : P e -> always P (emit e).
Proof. intros H s; repeat constructor; exact H. Qed.

Lemma always_print (m : Msg) : P (EPrint m) -> always P (print m).
Proof. apply always_emit. Qed.

Lemma always_sleep (n : Z) : P (ESleep n) -> always P (sleep n).
Proof. apply always_emit. Qed.

Lemma always_bind {A B} (m : M A) (f : A -> M B) :
  always P m -> (forall a, always P (f a)) -> always P (bind m f).
Proof.
  intros Hm Hf s. unfold bind. specialize (Hm s).
  destruct (m s) as [l1 s1 [a|e]]; simpl in *; [|exact Hm].
  specialize (Hf a s1). destruct (f a s1) as [l2 s2 r]; simpl in *.
  apply Forall_app; split; assumption.
Qed.

Lemma always_try_except {A} (m : M A) (h : Exn -> M A) :
  always P m -> (forall e, always P (h e)) -> always P (try_except m h).
Proof.
  intros Hm Hh s. unfold try_except. specialize (Hm s).
  destruct (m s) as [l1 s1 [a|e]]; simpl in *; [exact Hm|].
  specialize (Hh e s1). destruct (h e s1) as [l2 s2 r]; simpl in *.
  apply Forall_app; split; assumption.
Qed.

Lemma always_when (b : bool) (m : M unit) :
  always P m -> always P (when b m).
Proof. destruct b; simpl; [auto|intros _; apply always_ret]. Qed.

Lemma always_run env (argv : list string) :
  (forall r, P (ERun argv r)) -> always P (subprocess_run env argv).
Proof. intros H s; repeat constructor; apply H. Qed.

Lemma always_tmp (c : Manifest) :
  (forall n, P (ETmpCreate n c)) -> always P (NamedTemporaryFile c).
Proof. intros H s; repeat constructor; apply H. Qed.

Lemma always_unlink (n : nat) :
  P (EUnlink n) -> always P (unlink n).
Proof. intros H s; repeat constructor; exact H. Qed.

End Always.

(** A tactic that walks through a monadic term; [side] solves the
    conditions on the single events. *)
Ltac always_walk side :=
  repeat (cbv beta zeta;
    lazymatch goal with
    | |- always _ (bind _ _) => apply always_bind; [|intro]
    | |- always _ (try_except _ _) => apply always_try_except; [|intro]
    | |- always _ (ret _) => apply always_ret
    | |- always _ (raise _) => apply always_raise
    | |- always _ (print _) => apply always_print; side
    | |- always _ (sleep _) => apply always_sleep; side
    | |- always _ (when _ _) => apply always_when
    | |- always _ (subprocess_run _ _) => apply always_run; intro; side
    | |- always _ (NamedTemporaryFile _) => apply always_tmp; intro; side
    | |- always _ (unlink _) => apply always_unlink; side
    | |- always _ (if ?b then _ else _) => destruct b
    | |- always _ (match ?x with _ => _ end) => destruct x
    | |- always _ (run_command _ _ _) => unfold run_command
    | |- always _ (display_command_result _ _ _ _) =>
        unfold display_command_result
    | |- always _ (display_k8s_yaml _) => unfold display_k8s_yaml
    | |- always _ (kubectl_apply _ _ _) => unfold kubectl_apply
    | |- always _ (wait_for_job _ _ _ _) => unfold wait_for_job
    | |- always _ (get_subscription_id _) => unfold get_subscription_id
    | |- always _ (AzureManager_init _ _) => unfold AzureManager_init
    | |- always _ (show_summary _ _) => unfold show_summary
    end).

Ltac plain := always_walk ltac:(reflexivity).

Lemma is_plain_step (e : Event) : is_plain e -> is_step e.
Proof.
  unfold is_plain, is_step, plain_event. intros H.
  apply andb_true_iff in H. apply H.
Qed.

Lemma always_weaken {A} (P Q : Event -> Prop) (m : M A) :
  (forall e, P e -> Q e) -> always P m -> always Q m.
Proof. intros H Hm s. eapply Forall_impl; [exact H|apply Hm]. Qed.

Lemma AzureManager_init_plain env c : always is_plain (AzureManager_init env c).
Proof. plain. Qed.

Lemma create_resource_group_plain env self a f :
  always is_plain (create_resource_group env self a f).
Proof. unfold create_resource_group. plain. Qed.

Lemma create_managed_identity_plain env self :
  always is_plain (create_managed_identity env self).
Proof. unfold create_managed_identity. plain. Qed.

Lemma assign_roles_plain env self : always is_plain (assign_roles env self).
Proof. unfold assign_roles. plain. Qed.

Lemma create_aks_cluster_plain env self :
  always is_plain (create_aks_cluster env self).
Proof. unfold create_aks_cluster. plain. Qed.

Lemma configure_workload_identity_plain env self :
  always is_plain (configure_workload_identity env self).
Proof. unfold configure_workload_identity. plain. Qed.

Lemma apply_manifests_plain env suffix items :
  always is_plain (apply_manifests env suffix items).
Proof.
  induction items as [|[y d] rest IH]; simpl; plain. exact IH.
Qed.

Lemma configure_static_storage_plain env self :
  always is_plain (configure_static_storage env self).
Proof.
  unfold configure_static_storage. plain. apply apply_manifests_plain.
Qed.

Lemma configure_dynamic_storage_plain env self :
  always is_plain (configure_dynamic_storage env self).
Proof.
  unfold configure_dynamic_storage. plain. apply apply_manifests_plain.
Qed.

Lemma retry_loop_step env fuel allow v :
  always is_step (retry_loop env fuel allow v).
Proof.
  revert v; induction fuel as [|fuel IH]; intros v; simpl;
    always_walk ltac:(reflexivity); apply IH.
Qed.

Lemma create_storage_account_step env self :
  always is_step (create_storage_account env self).
Proof.
  unfold create_storage_account. always_walk ltac:(reflexivity).
  apply retry_loop_step.
Qed.

(** ** C1: keyless support *)

Lemma run_use_case_row env g allow base mgr i case s :
  exists l s',
    run_use_case env g allow base mgr i case s
    = mkOut (EPrint (MsgUseCase i (uc_name case)) :: l) s'
        (Ok {| row_case := uc_name case;
               row_success :=
                 is_ok (res (use_case_body env mgr
                               (case_config env g allow base case) case s));
               row_keyless :=
                 keyless_support (uc_storage case) (uc_provision case)
                   allow |})
    /\ (is_ok (res (use_case_body env mgr
                      (case_config env g allow base case) case s)) = false ->
        exists e, In (EPrint (MsgCaseError (uc_name case) e)) l).
Proof.
  unfold run_use_case, bind, try_except, print, emit, ret. simpl.
  destruct (use_case_body env mgr (case_config env g allow base case) case s)
    as [l1 s1 [[]|e]]; simpl.
  - eexists _, _. split; [reflexivity|discriminate].
  - eexists _, _. split; [reflexivity|].
    intros _. exists e. apply in_or_app. right. left. reflexivity.
Qed.

Lemma single_case_summary env g st pt dsk :
  always summary_ok (single_case env g st pt dsk).
Proof.
  assert (Hstep : forall A (m : M A), always is_step m -> always summary_ok m).
  { intros A m. apply always_weaken. intros [| | [] | |]; simpl; try easy. }
  assert (Hplain : forall A (m : M A),
             always is_plain m -> always summary_ok m).
  { intros A m H. apply Hstep. revert H. apply always_weaken, is_plain_step. }
  unfold single_case.
  always_walk ltac:(first [exact I | apply keyless_support_spec]).
  - apply Hplain, create_resource_group_plain.
  - apply Hplain, create_managed_identity_plain.
  - apply Hstep, create_storage_account_step.
  - apply Hplain, assign_roles_plain.
  - apply Hplain, create_aks_cluster_plain.
  - apply Hplain, configure_workload_identity_plain.
  - apply Hplain, configure_static_storage_plain.
  - apply Hplain, configure_dynamic_storage_plain.
Qed.

(** C1: the keyless flag is true if and only if the storage type is Blob,
    the provision type is Persistent and shared-key access is not allowed:
    for the expression itself, for every summary that the single-case mode
    prints, and for the row of every use case of the multi-case mode. *)
Theorem keyless_support_iff (env : World) (g : string) :
  (forall st pt allow,
      keyless_support st pt allow = true
      <-> st = BLOB /\ pt = PERSISTENT /\ allow = false)
  /\ (forall st pt dsk s,
        Forall summary_ok (log (single_case env g st pt dsk s)))
  /\ (forall allow base mgr i case s,
        exists row,
          res (run_use_case env g allow base mgr i case s) = Ok row
          /\ row_case row = uc_name case
          /\ (row_keyless row = true
              <-> uc_storage case = BLOB /\ uc_provision case = PERSISTENT
                  /\ allow = false)).
Proof.
  split; [exact keyless_support_spec|split].
  - intros st pt dsk s. apply single_case_summary.
  - intros allow base mgr i case s.
    destruct (run_use_case_row env g allow base mgr i case s)
      as (l & s' & -> & _).
    eexists. split; [reflexivity|]. split; [reflexivity|].
    apply keyless_support_spec.
Qed.

(** ** C2: the shared-key setting of a configuration *)

(** C2, as the code has it: when [allow_shared_key_access] is left out of
    the call, [Config] sets it to false exactly for Blob storage with
    Persistent provisioning; [main] never leaves it out, every configuration
    it builds has [allow_shared_key_access = not disable_shared_key], and a
    run with both options and without [--disable-shared-key] is the
    single-case run on that configuration. *)
Theorem shared_key_setting (env : World) (g : string) :
  (forall gen st pt uid,
      let c := Config_init gen (config_data g st pt uid None) in
      allow_shared_key_access c = false
      <-> storage_type c = BLOB /\ provision_type c = PERSISTENT)
  /\ (forall st pt dsk,
        allow_shared_key_access (single_config env g st pt dsk) = negb dsk)
  /\ (forall dsk, allow_shared_key_access (base_config env g dsk) = negb dsk)
  /\ (forall allow base case,
        allow_shared_key_access (case_config env g allow base case) = allow)
  /\ (forall st pt s,
        main env g (Some st) (Some pt) false s
        = single_case env g (Some st) (Some pt) false s).
Proof.
  split; [|repeat split].
  - intros gen stor prov uid.
    destruct stor as [[]|], prov as [[]|]; simpl; split;
      try (intros H; discriminate H); try (intros [H1 H2]; discriminate);
      try (intros _; split; reflexivity); try reflexivity.
  - intros stor prov s.
    unfold main, resolve_modes. rewrite bind_ret_l. reflexivity.
Qed.

(** C2 fails as stated: the run with group "poc", Blob, Persistent and no
    [--disable-shared-key] completes, and the configuration that its summary
    shows allows shared-key access. *)
Lemma default_run_allows_shared_key :
  let o := main all_fine "poc" (Some BLOB) (Some PERSISTENT) false initial in
  let c := single_config all_fine "poc" BLOB PERSISTENT false in
  res o = Ok tt
  /\ In (EPrint (MsgSummary c false)) (log o)
  /\ allow_shared_key_access c = true
  /\ allow_shared_key_access c <> false.
Proof.
  cbv zeta. split; [vm_compute; reflexivity|].
  split; [|split; [reflexivity|discriminate]].
  vm_compute. repeat (first [left; reflexivity | right]).
Qed.

(** ** C7: which commands are fatal in the single-case mode *)

Lemma no_runs_commands (l : list Event) :
  no_runs l = true -> commands l = [].
Proof.
  induction l as [|e t IH]; simpl; [reflexivity|].
  intros H. apply andb_true_iff in H as [He Ht].
  destruct e; simpl in *; try discriminate He; auto.
Qed.

(** C7, as the code has it: in the single-case mode a non-zero return code
    of [az group create], [az identity create], [az storage container
    create], [az storage share create], [az role assignment create],
    [az aks create], [az aks get-credentials] or [kubectl apply] ends the run
    with exit code 1, and no command is run after it (no retry, no
    recovery). *)
Theorem checked_command_failure_is_fatal (env : World) (g : string)
    (storage : option StorageType) (provision : option ProvisionType)
    (dsk : bool) (s : St) (argv : list string) (r : CompletedProcess) :
  In (ERun argv r) (log (single_case env g storage provision dsk s)) ->
  checked argv = true ->
  returncode r <> 0%Z ->
  res (single_case env g storage provision dsk s) = Raise (Exit 1)
  /\ exit_code (res (single_case env g storage provision dsk s)) = 1%Z
  /\ exists pre post,
       log (single_case env g storage provision dsk s)
       = pre ++ ERun argv r :: post
       /\ commands post = [].
Proof.
  intros Hin Hc Hr.
  destruct (in_split _ _ Hin) as (pre & post & E).
  assert (F : failed_check (ERun argv r) = true).
  { simpl. rewrite Hc. unfold succeeded.
    apply Z.eqb_neq in Hr. rewrite Hr. reflexivity. }
  destruct (abort_okb_spec _ _ (single_case_aborts env g storage provision
                                   dsk s) _ _ _ E F) as [Hraised Hpost].
  assert (R : res (single_case env g storage provision dsk s)
              = Raise (Exit 1)).
  { destruct (single_case_res env g storage provision dsk s) as [H|H];
      [rewrite H in Hraised; discriminate Hraised|exact H]. }
  split; [exact R|]. split; [rewrite R; reflexivity|].
  exists pre, post. split; [exact E|apply no_runs_commands, Hpost].
Qed.

Lemma checked_command_failure_is_fatal_witness :
  exit_code
    (res (single_case (failing ["az"; "aks"; "create"]) "poc" (Some BLOB)
            (Some PERSISTENT) false initial)) = 1%Z.
Proof.
  refine (proj1 (proj2 (checked_command_failure_is_fatal
    (failing ["az"; "aks"; "create"]) "poc" (Some BLOB) (Some PERSISTENT)
    false initial
    ["az"; "aks"; "create"; "--resource-group"; "poc-fedcba-rg";
     "--name"; "poc-fedcba-aks"; "--location"; "centralus";
     "--node-count"; "1"; "--enable-managed-identity";
     "--enable-oidc-issuer"; "--enable-workload-identity";
     "--enable-blob-driver"]
    (completed 1 "") _ _ _))).
  - vm_compute. repeat (first [left; reflexivity | right]).
  - reflexivity.
  - simpl. discriminate.
Defined.

(** C7 fails as stated: when [kubectl wait] returns 1 and every other
    command succeeds, the single-case run for Blob storage with Persistent
    provisioning returns normally, with exit code 0. *)
Lemma wait_failure_is_not_fatal :
  let o := single_case (failing ["kubectl"; "wait"]) "poc" (Some BLOB)
             (Some PERSISTENT) false initial in
  In (ERun ["kubectl"; "wait"; "--for=condition=complete";
            "job/static-blob-creator"; "--timeout=60s"] (completed 1 ""))
     (log o)
  /\ returncode (completed 1 "") <> 0%Z
  /\ res o = Ok tt
  /\ exit_code (res o) = 0%Z.
Proof.
  cbv zeta. split; [|split; [simpl; discriminate|split; vm_compute; reflexivity]].
  vm_compute. repeat (first [left; reflexivity | right]).
Qed.

(** The result of [az identity federated-credential create] is not looked
    at: when it fails the run goes on to the storage manifests and
    completes. *)
Example federated_credential_failure_is_ignored :
  let o := single_case (failing ["az"; "identity"; "federated-credential"])
             "poc" (Some BLOB) (Some PERSISTENT) false initial in
  res o = Ok tt
  /\ In (EPrint (MsgInfo "Workload identity configured successfully")) (log o).
Proof.
  cbv zeta. split; [vm_compute; reflexivity|].
  vm_compute. repeat (first [left; reflexivity | right]).
Qed.

(** ** C8: the retry loop of the storage account *)

Lemma decimal_inj (m n : nat) :
  NilEmpty.string_of_uint (Nat.to_uint m)
  = NilEmpty.string_of_uint (Nat.to_uint n) -> m = n.
Proof.
  intros H.
  assert (U : Nat.to_uint m = Nat.to_uint n).
  { pose proof (NilEmpty.usu (Nat.to_uint m)) as Hm.
    pose proof (NilEmpty.usu (Nat.to_uint n)) as Hn.
    rewrite H in Hm. congruence. }
  apply Unsigned.to_uint_inj in U. exact U.
Qed.

Lemma tmp_name_inj (m n : nat) : tmp_name m = tmp_name n -> m = n.
Proof.
  unfold tmp_name. intros H.
  assert (E : forall p a b, (p ++ a)%string = (p ++ b)%string -> a = b).
  { induction p as [|c p IH]; simpl; intros a b Hab; [exact Hab|].
    injection Hab as Hab. auto. }
  apply E in H. apply decimal_inj, H.
Qed.

Ltac distinct_commands :=
  repeat constructor; simpl; intuition (try discriminate);
  repeat match goal with
    | H : _ :: _ = _ :: _ |- _ => injection H as H; try discriminate
    | H : tmp_name _ = tmp_name _ |- _ => apply tmp_name_inj in H; try lia
    | H : NilEmpty.string_of_uint _ = NilEmpty.string_of_uint _ |- _ =>
        apply decimal_inj in H; try lia
    end.

Ltac nodup_by_paths :=
  unfold_script; run_paths; cbn [commands flat_map app log];
  distinct_commands.

Lemma assign_roles_nodup env self s :
  NoDup (commands (log (assign_roles env self s))).
Proof.
  unfold assign_roles. cbv zeta.
  destruct (storage_type (config self)). 
  all: nodup_by_paths.
Qed.

Lemma configure_static_storage_nodup env self s :
  NoDup (commands (log (configure_static_storage env self s))).
Proof.
  unfold configure_static_storage. nodup_by_paths.
Qed.

Ltac use_facts :=
  repeat match goal with
    | H : _ = true |- _ => rewrite H in *; clear H
    | H : _ = false |- _ => rewrite H in *; clear H
    end.

Ltac pick_shape :=
  repeat (first [ left; split; reflexivity | right ]);
  try (split; reflexivity).

Lemma create_storage_account_shape env self s :
  (account_exists env self s = true ->
   retry_shape (log (create_storage_account env self s)) = [])
  /\ (account_exists env self s = false ->
      (retry_shape (log (create_storage_account env self s)) = [Try true]
       /\ creation_failed (res (create_storage_account env self s)) = false)
      \/ (retry_shape (log (create_storage_account env self s))
          = [Try false; Wait 5; Try true]
          /\ creation_failed (res (create_storage_account env self s)) = false)
      \/ (retry_shape (log (create_storage_account env self s))
          = [Try false; Wait 5; Try false; Wait 5; Try true]
          /\ creation_failed (res (create_storage_account env self s)) = false)
      \/ (retry_shape (log (create_storage_account env self s))
          = [Try false; Wait 5; Try false; Wait 5; Try false]
          /\ creation_failed (res (create_storage_account env self s)) = true)).
Proof.
  change (holds (fun o =>
    (account_exists env self s = true -> retry_shape (log o) = [])
    /\ (account_exists env self s = false ->
        (retry_shape (log o) = [Try true] /\ creation_failed (res o) = false)
        \/ (retry_shape (log o) = [Try false; Wait 5; Try true]
            /\ creation_failed (res o) = false)
        \/ (retry_shape (log o)
             = [Try false; Wait 5; Try false; Wait 5; Try true]
            /\ creation_failed (res o) = false)
        \/ (retry_shape (log o)
             = [Try false; Wait 5; Try false; Wait 5; Try false]
            /\ creation_failed (res o) = true)))
    (create_storage_account env self s)).
  unfold create_storage_account. cbv zeta.
  unfold_script. run_paths.
  all: unfold holds, account_exists; cbv zeta; recall_results;
    unfold retry_shape, attempt_ok, creation_failed, create_failed_msg;
    cbn; use_facts; cbn.
  all: split; intros H; try discriminate H; try reflexivity; pick_shape.
Qed.

Lemma bind_ext {A B} (m : M A) (f f' : A -> M B) (s : St) :
  (forall a s', f a s' = f' a s') -> bind m f s = bind m f' s.
Proof.
  intros H. unfold bind. destruct (m s) as [l1 s1 [a|e]]; [|reflexivity].
  rewrite H. reflexivity.
Qed.

(** More fuel than the loop needs changes nothing. *)
Lemma retry_loop_more_fuel env allow (fuel : nat) :
  forall v s,
    rs_success v = true \/ max_retries - rs_retry_count v <= fuel ->
    retry_loop env (S fuel) allow v s = retry_loop env fuel allow v s.
Proof.
  induction fuel as [|fuel IH]; intros v s H.
  - assert (C : (rs_retry_count v <? max_retries)%nat
                && negb (rs_success v) = false).
    { destruct H as [H|H]; [rewrite H; apply andb_false_r|].
      apply andb_false_iff; left. apply Nat.ltb_ge. lia. }
    simpl. rewrite C. reflexivity.
  - change (retry_loop env (S (S fuel)) allow v s)
      with ((if (rs_retry_count v <? max_retries)%nat && negb (rs_success v)
             then
               storage_result <-
                 run_command env (storage_create_cmd (config (rs_self v)) allow)
                   true ;;
               if succeeded storage_result
                  && PyStr.truthy (PyStr.strip (stdout storage_result))
               then
                 retry_loop env (S fuel) allow
                   {| rs_self :=
                        set_storage_account_id
                          (PyStr.strip (stdout storage_result)) (rs_self v);
                      rs_retry_count := rs_retry_count v;
                      rs_success := true;
                      rs_storage_result := Some storage_result |}
               else
                 when (S (rs_retry_count v) <? max_retries)%nat
                   (print (MsgRetry (S (rs_retry_count v)) max_retries) ;;
                    sleep 5) ;;
                 retry_loop env (S fuel) allow
                   {| rs_self := rs_self v;
                      rs_retry_count := S (rs_retry_count v);
                      rs_success := false;
                      rs_storage_result := Some storage_result |}
             else ret v) s).
    change (retry_loop env (S fuel) allow v s)
      with ((if (rs_retry_count v <? max_retries)%nat && negb (rs_success v)
             then
               storage_result <-
                 run_command env (storage_create_cmd (config (rs_self v)) allow)
                   true ;;
               if succeeded storage_result
                  && PyStr.truthy (PyStr.strip (stdout storage_result))
               then
                 retry_loop env fuel allow
                   {| rs_self :=
                        set_storage_account_id
                          (PyStr.strip (stdout storage_result)) (rs_self v);
                      rs_retry_count := rs_retry_count v;
                      rs_success := true;
                      rs_storage_result := Some storage_result |}
               else
                 when (S (rs_retry_count v) <? max_retries)%nat
                   (print (MsgRetry (S (rs_retry_count v)) max_retries) ;;
                    sleep 5) ;;
                 retry_loop env fuel allow
                   {| rs_self := rs_self v;
                      rs_retry_count := S (rs_retry_count v);
                      rs_success := false;
                      rs_storage_result := Some storage_result |}
             else ret v) s).
    destruct ((rs_retry_count v <? max_retries)%nat && negb (rs_success v))
      eqn:C; [|reflexivity].
    apply andb_true_iff in C as [C1 C2]. apply Nat.ltb_lt in C1.
    apply negb_true_iff in C2.
    apply bind_ext. intros r s'.
    destruct (succeeded r && PyStr.truthy (PyStr.strip (stdout r))).
    + apply IH. left; reflexivity.
    + apply bind_ext. intros _ s''. apply IH. right.
      cbn [rs_retry_count]. destruct H as [H|H]; [congruence|lia].
Qed.

Lemma retry_loop_fuel env allow self s (extra : nat) :
  retry_loop env (max_retries + extra) allow
    {| rs_self := self; rs_retry_count := 0; rs_success := false;
       rs_storage_result := None |} s
  = retry_loop env max_retries allow
      {| rs_self := self; rs_retry_count := 0; rs_success := false;
         rs_storage_result := None |} s.
Proof.
  induction extra as [|k IH]; [rewrite Nat.add_0_r; reflexivity|].
  rewrite <- IH. rewrite Nat.add_succ_r.
  apply retry_loop_more_fuel. right. cbn [rs_retry_count]. lia.
Qed.

Lemma log_void {A} (m : M A) (s : St) : log (void m s) = log (m s).
Proof.
  unfold void, bind, ret. destruct (m s) as [l s' [a|e]]; simpl;
    [apply app_nil_r|reflexivity].
Qed.

Lemma AzureManager_init_nodup env c s :
  NoDup (commands (log (AzureManager_init env c s))).
Proof. nodup_by_paths. Qed.

Lemma create_resource_group_nodup env self a f s :
  NoDup (commands (log (create_resource_group env self a f s))).
Proof. unfold create_resource_group. nodup_by_paths. Qed.

Lemma create_managed_identity_nodup env self s :
  NoDup (commands (log (create_managed_identity env self s))).
Proof.
  unfold create_managed_identity, identity_show_cmd. nodup_by_paths.
Qed.

Lemma create_aks_cluster_nodup env self s :
  NoDup (commands (log (create_aks_cluster env self s))).
Proof. unfold create_aks_cluster. nodup_by_paths. Qed.

Lemma configure_workload_identity_nodup env self s :
  NoDup (commands (log (configure_workload_identity env self s))).
Proof.
  unfold configure_workload_identity, federated_credential_cmd.
  nodup_by_paths.
Qed.

Lemma configure_dynamic_storage_nodup env self s :
  NoDup (commands (log (configure_dynamic_storage env self s))).
Proof. unfold configure_dynamic_storage. nodup_by_paths. Qed.

Lemma plain_no_sleep (l : list Event) :
  Forall is_plain l -> Forall (fun e => is_sleep e = false) l.
Proof.
  apply Forall_impl. intros e H. unfold is_plain, plain_event in H.
  apply andb_true_iff in H as [_ H]. apply negb_true_iff, H.
Qed.

Lemma always_void {A} (P : Event -> Prop) (m : M A) :
  always P m -> always P (void m).
Proof. intros H s. rewrite log_void. apply H. Qed.

(** C8: [create_storage_account] creates nothing and never sleeps when the
    first [az storage account show] finds the account; otherwise the log
    shows one, two or three [az storage account create], a sleep of 5
    seconds between two attempts and none after the last, and the exception
    of the loop is raised exactly when the three attempts failed.  The loop
    ends by its own condition (more fuel changes nothing).  No other step
    runs a command twice or sleeps. *)
Theorem storage_account_creation_retries (env : World) (self : AzureManager)
    (s : St) (all_use_cases : bool) (use_cases_filter : option Filter) :
  (account_exists env self s = true ->
   retry_shape (log (create_storage_account env self s)) = [])
  /\ (account_exists env self s = false ->
      (retry_shape (log (create_storage_account env self s)) = [Try true]
       /\ creation_failed (res (create_storage_account env self s)) = false)
      \/ (retry_shape (log (create_storage_account env self s))
          = [Try false; Wait 5; Try true]
          /\ creation_failed (res (create_storage_account env self s)) = false)
      \/ (retry_shape (log (create_storage_account env self s))
          = [Try false; Wait 5; Try false; Wait 5; Try true]
          /\ creation_failed (res (create_storage_account env self s)) = false)
      \/ (retry_shape (log (create_storage_account env self s))
          = [Try false; Wait 5; Try false; Wait 5; Try false]
          /\ creation_failed (res (create_storage_account env self s)) = true))
  /\ (forall allow extra,
        retry_loop env (max_retries + extra) allow
          {| rs_self := self; rs_retry_count := 0; rs_success := false;
             rs_storage_result := None |} s
        = retry_loop env max_retries allow
            {| rs_self := self; rs_retry_count := 0; rs_success := false;
               rs_storage_result := None |} s)
  /\ (forall m,
        In m (other_steps env self all_use_cases use_cases_filter) ->
        forall s',
          NoDup (commands (log (m s')))
          /\ Forall (fun e => is_sleep e = false) (log (m s'))).
Proof.
  split; [apply create_storage_account_shape|].
  split; [apply create_storage_account_shape|].
  split; [intros allow extra; apply retry_loop_fuel|].
  intros m Hm s'. unfold other_steps in Hm. simpl in Hm.
  repeat destruct Hm as [<-|Hm]; try contradiction;
    rewrite ?log_void; split;
    try (apply plain_no_sleep).
  - apply AzureManager_init_nodup.
  - apply AzureManager_init_plain.
  - apply create_resource_group_nodup.
  - apply create_resource_group_plain.
  - apply create_managed_identity_nodup.
  - apply create_managed_identity_plain.
  - apply assign_roles_nodup.
  - apply assign_roles_plain.
  - apply create_aks_cluster_nodup.
  - apply create_aks_cluster_plain.
  - apply configure_workload_identity_nodup.
  - apply configure_workload_identity_plain.
  - apply configure_static_storage_nodup.
  - apply configure_static_storage_plain.
  - apply configure_dynamic_storage_nodup.
  - apply configure_dynamic_storage_plain.
Qed.

Lemma storage_account_creation_retries_witness :
  let found := fresh_manager (single_config all_fine "poc" BLOB PERSISTENT false) in
  let world := failing_all [["az"; "storage"; "account"; "show"];
                            ["az"; "storage"; "account"; "create"]] in
  let missing := fresh_manager (single_config world "poc" BLOB PERSISTENT false) in
  retry_shape (log (create_storage_account all_fine found initial)) = []
  /\ ((retry_shape (log (create_storage_account world missing initial))
       = [Try true]
       /\ creation_failed (res (create_storage_account world missing initial))
          = false)
      \/ (retry_shape (log (create_storage_account world missing initial))
          = [Try false; Wait 5; Try true]
          /\ creation_failed (res (create_storage_account world missing initial))
             = false)
      \/ (retry_shape (log (create_storage_account world missing initial))
          = [Try false; Wait 5; Try false; Wait 5; Try true]
          /\ creation_failed (res (create_storage_account world missing initial))
             = false)
      \/ (retry_shape (log (create_storage_account world missing initial))
          = [Try false; Wait 5; Try false; Wait 5; Try false]
          /\ creation_failed (res (create_storage_account world missing initial))
             = true))
  /\ NoDup (commands (log (assign_roles all_fine found initial))).
Proof.
  cbv zeta. split; [|split].
  - apply (proj1 (storage_account_creation_retries all_fine _ initial
                    false None)).
    vm_compute. reflexivity.
  - apply (proj1 (proj2 (storage_account_creation_retries _ _ initial
                           false None))).
    vm_compute. reflexivity.
  - apply (proj2 (proj2 (proj2 (storage_account_creation_retries all_fine
             (fresh_manager (single_config all_fine "poc" BLOB PERSISTENT
                               false)) initial false None)))
             (assign_roles all_fine _)).
    simpl. tauto.
Defined.

(** The all-failure shape is reached: three attempts, two sleeps, then the
    exception. *)
Example three_failed_attempts :
  let world := failing_all [["az"; "storage"; "account"; "show"];
                            ["az"; "storage"; "account"; "create"]] in
  let o := create_storage_account world
             (fresh_manager (single_config world "poc" BLOB PERSISTENT false))
             initial in
  retry_shape (log o) = [Try false; Wait 5; Try false; Wait 5; Try false]
  /\ res o = Raise (PyException
       "Failed to create storage account after 3 attempts: Unknown error").
Proof. cbv zeta. split; vm_compute; reflexivity. Qed.

(** ** The loop over the use cases *)

Lemma run_use_case_attempt env g allow base mgr i case s :
  exists s',
    run_use_case env g allow base mgr i case s
    = mkOut (attempt_log env g allow base mgr (i, case, s)) s'
        (Ok (attempt_row env g allow base mgr (i, case, s))).
Proof.
  unfold run_use_case, attempt_log, attempt_row, attempt_body,
    bind, try_except, print, emit, ret.
  simpl.
  destruct (use_case_body env mgr (case_config env g allow base case) case s)
    as [l1 s1 [[]|e]]; simpl.
  - eexists. rewrite app_nil_r. reflexivity.
  - eexists. reflexivity.
Qed.

Lemma run_use_cases_attempts env g allow base mgr cases :
  forall i results s,
  exists s',
    run_use_cases env g allow base mgr i cases results s
    = mkOut
        (flat_map (attempt_log env g allow base mgr)
           (attempts env g allow base mgr i cases s))
        s'
        (Ok (results
             ++ map (attempt_row env g allow base mgr)
                  (attempts env g allow base mgr i cases s))).
Proof.
  induction cases as [|case rest IH]; intros i results s.
  - exists s. simpl. rewrite app_nil_r. reflexivity.
  - cbn [run_use_cases attempts flat_map map].
    destruct (run_use_case_attempt env g allow base mgr i case s)
      as (s1 & Hrun).
    unfold bind at 1. rewrite Hrun. cbn [st].
    destruct (IH (S i) (results ++ [attempt_row env g allow base mgr
                                      (i, case, s)]) s1)
      as (s2 & ->).
    exists s2. rewrite <- app_assoc. reflexivity.
Qed.

Lemma attempts_cases env g allow base mgr cases :
  forall i s,
    map (fun a => snd (fst a)) (attempts env g allow base mgr i cases s)
    = cases.
Proof.
  induction cases as [|case rest IH]; intros i s; simpl;
    [reflexivity | rewrite IH; reflexivity].
Qed.

(** A run of the two Blob cases in which the first [kubectl apply] of the
    static case fails: the table has a failed row for it and a row for the
    dynamic case, which ran after it, and the exit code is 0. *)
Example failed_case_is_recorded :
  let o := multi_case (failing ["kubectl"; "apply"; "-f"; "/tmp/tmp1"]) "poc"
             (Some BLOB) None false
             {| run_all_cases := false; run_all_storage_types := false;
                run_all_provision_types := true |} initial in
  last (log o) (ESleep 0)
  = EPrint (MsgResults
      [ {| row_case := "Blob-Static"; row_success := false;
           row_keyless := false |};
        {| row_case := "Blob-Dynamic"; row_success := true;
           row_keyless := false |} ])
  /\ exit_code (res o) = 0%Z.
Proof. cbv zeta. split; vm_compute; reflexivity. Qed.

(** ** C10: a job that does not complete in time *)
























(** ** Temporary manifest files *)







(** X3: [configure_workload_identity] never deletes the temporary file of
    the service account: after the call the file is on disk, whether the
    apply succeeded or not.  The function returns exactly when the
    [kubectl apply] returned 0; the return code of
    [az identity federated-credential create] is not looked at. *)
Theorem service_account_file_is_kept (env : World) (self : AzureManager)
    (s : St) :
  tmp_files (st (configure_workload_identity env self s))
  = tmp_files s ++ [tmp_next s]
  /\ (res (configure_workload_identity env self s) = Ok tt
      <-> succeeded (run_result env (calls s)
                       ["kubectl"; "apply"; "-f"; tmp_name (tmp_next s)])
          = true)
  /\ (res (configure_workload_identity env self s) = Ok tt ->
      In (ERun (federated_credential_cmd self)
            (run_result env (S (calls s)) (federated_credential_cmd self)))
         (log (configure_workload_identity env self s))).
Proof.
  unfold configure_workload_identity. cbv zeta.
  unfold display_k8s_yaml, kubectl_apply, NamedTemporaryFile,
    subprocess_run, when, print, emit, bind, ret, raise.
  cbn [log st res calls tmp_next tmp_files app].
  destruct (succeeded (run_result env (calls s)
              ["kubectl"; "apply"; "-f"; tmp_name (tmp_next s)])) eqn:Hr.
  - cbn [log st res calls tmp_next tmp_files app].
    split; [reflexivity|]. split; [tauto|].
    intros _. do 5 right. left. reflexivity.
  - destruct (PyStr.truthy _ && PyStr.truthy _);
      cbn [log st res calls tmp_next tmp_files app];
      (split; [reflexivity|]); split;
      try (split; intros H; discriminate H); intros H; discriminate H.
Qed.

Lemma service_account_file_is_kept_witness :
  let mgr := fresh_manager (single_config all_fine "poc" BLOB PERSISTENT false) in
  In (ERun (federated_credential_cmd mgr)
        (run_result all_fine 1 (federated_credential_cmd mgr)))
     (log (configure_workload_identity all_fine mgr initial)).
Proof.
  cbv zeta.
  apply (proj2 (proj2 (service_account_file_is_kept all_fine
           (fresh_manager (single_config all_fine "poc" BLOB PERSISTENT false))
           initial))).
  vm_compute. reflexivity.
Defined.

(** ** The managed identity *)

(** X5: [create_managed_identity] returns only with both identifiers of the
    identity: when it returns, the client id and the principal id of the
    manager are the stripped outputs of the two [az identity show] commands,
    neither is empty and the configuration is the one it was given.  When
    one of the two outputs is blank, it does not return. *)
Theorem managed_identity_ids (env : World) (self : AzureManager) (s : St) :
  let c := config self in
  let client :=
    PyStr.strip (stdout (run_result env (S (calls s))
                           (identity_show_cmd c "clientId"))) in
  let principal :=
    PyStr.strip (stdout (run_result env (S (S (calls s)))
                           (identity_show_cmd c "principalId"))) in
  (forall m,
      res (create_managed_identity env self s) = Ok m ->
      identity_client_id m = client /\ identity_principal_id m = principal
      /\ PyStr.truthy client = true /\ PyStr.truthy principal = true
      /\ config m = c)
  /\ (PyStr.truthy client = false \/ PyStr.truthy principal = false ->
      is_ok (res (create_managed_identity env self s)) = false).
Proof.
  cbv zeta.
  change (holds (fun o =>
    (forall m, res o = Ok m ->
       identity_client_id m
       = PyStr.strip (stdout (run_result env (S (calls s))
                                (identity_show_cmd (config self) "clientId")))
       /\ identity_principal_id m
          = PyStr.strip (stdout (run_result env (S (S (calls s)))
                           (identity_show_cmd (config self) "principalId")))
       /\ PyStr.truthy
            (PyStr.strip (stdout (run_result env (S (calls s))
                             (identity_show_cmd (config self) "clientId"))))
          = true
       /\ PyStr.truthy
            (PyStr.strip (stdout (run_result env (S (S (calls s)))
                             (identity_show_cmd (config self) "principalId"))))
          = true
       /\ config m = config self)
    /\ (PyStr.truthy
          (PyStr.strip (stdout (run_result env (S (calls s))
             (identity_show_cmd (config self) "clientId")))) = false
        \/ PyStr.truthy
             (PyStr.strip (stdout (run_result env (S (S (calls s)))
                (identity_show_cmd (config self) "principalId"))))
           = false ->
        is_ok (res o) = false))
    (create_managed_identity env self s)).
  unfold create_managed_identity. cbv zeta.
  unfold_script. run_paths.
  all: unfold holds; subst; cbn [res is_ok];
    cbn [identity_client_id identity_principal_id config
         set_identity_client_id set_identity_principal_id] in *.
  all: split;
    [ intros m Hm; try discriminate Hm; injection Hm as <-;
      cbn [identity_client_id identity_principal_id config
           set_identity_client_id set_identity_principal_id]
    | intros Hid; try reflexivity ].
  all: repeat match goal with
       | H : negb _ = _ |- _ => apply (f_equal negb) in H;
                                rewrite negb_involutive in H; cbn [negb] in H
       | H : _ || _ = true |- _ => apply orb_true_iff in H
       | H : _ || _ = false |- _ => apply orb_false_iff in H; destruct H
       end.
  all: try (repeat split; (reflexivity || assumption || tauto)).
  all: try congruence.
  all: try (destruct Hid; congruence).
Qed.

Lemma managed_identity_ids_witness :
  PyStr.truthy
    (PyStr.strip
       (stdout (run_result all_fine 1
                  (identity_show_cmd
                     (single_config all_fine "poc" BLOB PERSISTENT false)
                     "clientId")))) = true.
Proof.
  refine (proj1 (proj2 (proj2 (proj1 (managed_identity_ids all_fine
    (fresh_manager (single_config all_fine "poc" BLOB PERSISTENT false))
    initial) _ _)))).
  vm_compute. reflexivity.
Defined.

(** ** A failure of the shared infrastructure *)

Lemma shared_infrastructure_step env base modes stor prov cases :
  always is_step (shared_infrastructure env base modes stor prov cases).
Proof.
  assert (Hplain : forall A (m : M A), always is_plain m -> always is_step m).
  { intros A m. apply always_weaken, is_plain_step. }
  unfold shared_infrastructure.
  always_walk ltac:(reflexivity).
  all: first [ apply Hplain, create_resource_group_plain
             | apply Hplain, create_managed_identity_plain
             | apply Hplain, create_aks_cluster_plain
             | apply Hplain, configure_workload_identity_plain
             | apply create_storage_account_step ].
Qed.

(** X6: in the multi-case mode an exception of the shared infrastructure
    (resource group, identity, cluster, workload identity, storage account)
    ends the run: the error is printed, the exit code is 1, and neither a
    use case is started nor a table of results printed. *)
Theorem infrastructure_failure_is_fatal (env : World) (g : string)
    (storage : option StorageType) (provision : option ProvisionType)
    (modes : Modes) (s s0 : St) (l0 : list Event) (e : Exn) :
  shared_infrastructure env (base_config env g false) modes storage provision
    (select_use_cases modes storage provision) s
  = mkOut l0 s0 (Raise e) ->
  multi_case env g storage provision false modes s
  = mkOut (l0 ++ [EPrint (MsgFatal e)]) s0 (Raise (Exit 1))
  /\ exit_code (res (multi_case env g storage provision false modes s)) = 1%Z
  /\ Forall is_step l0.
Proof.
  intros Hinfra.
  assert (Hrun : multi_case env g storage provision false modes s
                 = mkOut (l0 ++ [EPrint (MsgFatal e)]) s0 (Raise (Exit 1))).
  { unfold multi_case. cbv zeta. cbn [negb andb].
    unfold try_except, bind, ret, print, emit, raise. rewrite Hinfra.
    cbn [app]. reflexivity. }
  split; [exact Hrun|]. split; [rewrite Hrun; reflexivity|].
  pose proof (shared_infrastructure_step env (base_config env g false) modes
                storage provision (select_use_cases modes storage provision)
                s) as H.
  rewrite Hinfra in H. exact H.
Qed.

Lemma infrastructure_failure_is_fatal_witness :
  exit_code
    (res (multi_case (failing ["az"; "aks"; "create"]) "poc" None None false
            {| run_all_cases := true; run_all_storage_types := false;
               run_all_provision_types := false |} initial)) = 1%Z.
Proof.
  eapply (fun s0 l0 e H =>
    proj1 (proj2 (infrastructure_failure_is_fatal
      (failing ["az"; "aks"; "create"]) "poc" None None
      {| run_all_cases := true; run_all_storage_types := false;
         run_all_provision_types := false |} initial s0 l0 e H))).
  vm_compute. reflexivity.
Defined.

(** ** The configurations of the multi-case mode *)

Lemma or_derived_same (d : string) : or_derived d d = d.
Proof. unfold or_derived. destruct (PyStr.truthy d); reflexivity. Qed.

Lemma random_choices_truthy gen k :
  PyStr.truthy (random_choices gen (S k)) = true.
Proof. reflexivity. Qed.

(** X7: every use case of a multi-case run works on the resources of the
    base configuration: its configuration has the unique id, the resource
    group, the storage account, the identity and the cluster of the base
    configuration, with the storage type, the provision type and the
    shared-key setting of the use case. *)
Theorem use_cases_share_resources (env : World) (g : string)
    (disable_shared_key allow : bool) (case : UseCase) :
  let base := base_config env g disable_shared_key in
  let c := case_config env g allow base case in
  unique_id c = unique_id base
  /\ names c = names base
  /\ storage_type c = uc_storage case
  /\ provision_type c = uc_provision case
  /\ allow_shared_key_access c = allow
  /\ String.length (unique_id base) = 6.
Proof.
  cbv zeta. unfold case_config, base_config, names, Config_init, config_data.
  cbn [group storage_type provision_type location unique_id resource_group
       storage_account identity_name cluster_name allow_shared_key_access
       d_group d_storage_type d_provision_type d_unique_id d_resource_group
       d_storage_account d_identity_name d_cluster_name
       d_allow_shared_key_access].
  change (PyStr.truthy "") with false. cbv iota.
  rewrite (random_choices_truthy (randomness env) 5).
  set (uid := random_choices (randomness env) 6).
  unfold or_derived at 5 6 7 8. change (PyStr.truthy "") with false.
  cbv iota.
  rewrite !or_derived_same.
  assert (Hsa : or_derived
                  match uc_provision case with
                  | PERSISTENT =>
                      PyStr.take 24 (PyStr.remove_hyphens (g ++ uid ++ "sa"))
                  | DYNAMIC => ""
                  end
                  (PyStr.take 24 (PyStr.remove_hyphens (g ++ uid ++ "sa")))
                = PyStr.take 24 (PyStr.remove_hyphens (g ++ uid ++ "sa"))).
  { destruct (uc_provision case); [apply or_derived_same|reflexivity]. }
  unfold or_derived at 2 3. change (PyStr.truthy "") with false. cbv iota.
  rewrite Hsa. repeat split; reflexivity.
Qed.

(** ** The end of a single-case run *)

Lemma finishes_bind {A B} suffix (m : M A) (f : A -> M B) :
  (forall a, finishes suffix (f a)) -> finishes suffix (bind m f).
Proof.
  intros Hf s. unfold bind.
  destruct (m s) as [l1 s1 [a|e]]; cbn [res is_ok log];
    [|intros H; discriminate H].
  specialize (Hf a s1). destruct (f a s1) as [l2 s2 r].
  cbn [res is_ok log] in *. intros H. destruct (Hf H) as (l & ->).
  exists (l1 ++ l). apply app_assoc.
Qed.

Lemma finishes_try_fatal {A} suffix (m : M A) :
  finishes suffix m -> finishes suffix (try_except m fatal).
Proof.
  intros Hm s. unfold try_except, fatal. specialize (Hm s).
  destruct (m s) as [l1 s1 [a|e]]; cbn [res is_ok log] in *;
    [exact Hm|intros H; discriminate H].
Qed.

Lemma single_case_finishes env g stor prov dsk :
  finishes
    (closing_lines
       (single_config env g
          match stor with Some x => x | None => BLOB end
          match prov with Some p => p | None => PERSISTENT end dsk)
       (keyless_support
          match stor with Some x => x | None => BLOB end
          match prov with Some p => p | None => PERSISTENT end (negb dsk)))
    (single_case env g stor prov dsk).
Proof.
  unfold single_case. cbv zeta.
  change (fun e : Exn => print (MsgFatal e);; raise (Exit 1))
    with (@fatal unit).
  apply finishes_bind; intros _.
  apply finishes_try_fatal.
  do 8 (apply finishes_bind; intro).
  intros s _. exists []. reflexivity.
Qed.

Ltac quiet_walk := always_walk ltac:(split; reflexivity).

Lemma apply_manifests_quiet env suffix items :
  always quiet (apply_manifests env suffix items).
Proof.
  induction items as [|[y d] rest IH]; simpl; quiet_walk. exact IH.
Qed.

Section Cooperative.

Variable env : World.
Hypothesis Hcoop : cooperative env.

Lemma coop_succeeded n argv : succeeded (run_result env n argv) = true.
Proof. apply Hcoop. Qed.

Lemma coop_output n argv :
  PyStr.truthy (PyStr.strip (stdout (run_result env n argv))) = true.
Proof. apply Hcoop. Qed.

Ltac coop_step :=
  unfold_script; cbv zeta;
  cbn [log st res is_ok negb andb orb app calls tmp_next tmp_files
       PyStr.truthy String.append fst snd
       config subscription_id resource_group_id storage_account_id
       identity_principal_id identity_client_id oidc_issuer_url
       set_resource_group_id set_storage_account_id
       set_identity_principal_id set_identity_client_id set_oidc_issuer_url
       AzureManager_init get_subscription_id kubectl_apply wait_for_job
       show_summary display_command_result display_k8s_yaml run_command
       subprocess_run NamedTemporaryFile unlink when print sleep emit bind
       try_except ret raise];
  rewrite ?coop_succeeded, ?coop_output.

Ltac coop_run := repeat (progress coop_step).

Lemma create_storage_account_quiet self :
  always quiet (create_storage_account env self).
Proof.
  intros s; unfold create_storage_account; coop_run;
    destruct (storage_type (config self)); coop_run; repeat constructor.
Qed.

Lemma single_case_quiet g stor prov dsk :
  always quiet (single_case env g stor prov dsk).
Proof.
  unfold single_case, create_resource_group, create_managed_identity,
    assign_roles, create_aks_cluster, configure_workload_identity,
    configure_static_storage, configure_dynamic_storage.
  quiet_walk.
  all: first [ apply create_storage_account_quiet
             | apply apply_manifests_quiet ].
Qed.

End Cooperative.

(** X8: a single-case run that returns ends with the summary table of its
    configuration and the success message: they are the last two things it
    prints.  When every command returns 0 and prints something that is not
    blank, the storage account is taken as existing (no
    [az storage account create] runs) and the run never sleeps. *)
Theorem completed_run_ends_with_summary (env : World) (g : string)
    (stor : option StorageType) (prov : option ProvisionType) (dsk : bool)
    (s : St) :
  (res (single_case env g stor prov dsk s) = Ok tt ->
   exists l,
     log (single_case env g stor prov dsk s)
     = l ++ closing_lines
              (single_config env g
                 match stor with Some x => x | None => BLOB end
                 match prov with Some p => p | None => PERSISTENT end dsk)
              (keyless_support
                 match stor with Some x => x | None => BLOB end
                 match prov with Some p => p | None => PERSISTENT end
                 (negb dsk)))
  /\ (cooperative env ->
      Forall quiet (log (single_case env g stor prov dsk s))).
Proof.
  split.
  - intros Hres. apply single_case_finishes. rewrite Hres. reflexivity.
  - intros Hcoop. apply single_case_quiet, Hcoop.
Qed.

Lemma completed_run_ends_with_summary_witness :
  (exists l,
      log (single_case all_fine "poc" (Some FILE) (Some DYNAMIC) false
             initial)
      = l ++ closing_lines (single_config all_fine "poc" FILE DYNAMIC false)
               (keyless_support FILE DYNAMIC (negb false)))
  /\ Forall quiet
       (log (single_case all_fine "poc" (Some FILE) (Some DYNAMIC) false
               initial)).
Proof.
  split.
  - apply (proj1 (completed_run_ends_with_summary all_fine "poc" (Some FILE)
                    (Some DYNAMIC) false initial)).
    vm_compute. reflexivity.
  - apply (proj2 (completed_run_ends_with_summary all_fine "poc" (Some FILE)
                    (Some DYNAMIC) false initial)).
    intros n argv. split; reflexivity.
Defined.

(** ** The tags of the resource group *)

Lemma no_group_tags (l : list Event) : Forall no_group l -> group_tags l = [].
Proof.
  induction 1 as [|e l He _ IH]; [reflexivity|].
  unfold group_tags in *. simpl. rewrite He, IH. reflexivity.
Qed.

Lemma group_tags_app (l1 l2 : list Event) :
  group_tags (l1 ++ l2) = group_tags l1 ++ group_tags l2.
Proof. apply flat_map_app. Qed.

Lemma group_tags_bind_l {A B} (m : M A) (f : A -> M B) (s : St) :
  (forall a, always no_group (f a)) ->
  group_tags (log (bind m f s)) = group_tags (log (m s)).
Proof.
  intros Hf. unfold bind. destruct (m s) as [l1 s1 [a|e]]; [|reflexivity].
  specialize (Hf a s1). apply no_group_tags in Hf.
  destruct (f a s1) as [l2 s2 r]. cbn [log] in *.
  rewrite group_tags_app, Hf, app_nil_r. reflexivity.
Qed.

Lemma group_tags_try {A} (m : M A) (h : Exn -> M A) (s : St) :
  (forall e, always no_group (h e)) ->
  group_tags (log (try_except m h s)) = group_tags (log (m s)).
Proof.
  intros Hh. unfold try_except. destruct (m s) as [l1 s1 [a|e]];
    [reflexivity|].
  specialize (Hh e s1). apply no_group_tags in Hh.
  destruct (h e s1) as [l2 s2 r]. cbn [log] in *.
  rewrite group_tags_app, Hh, app_nil_r. reflexivity.
Qed.

Ltac no_groups := always_walk ltac:(reflexivity).

Lemma apply_manifests_no_group env suffix items :
  always no_group (apply_manifests env suffix items).
Proof.
  induction items as [|[y d] rest IH]; simpl; no_groups. exact IH.
Qed.

Lemma retry_loop_no_group env fuel allow v :
  always no_group (retry_loop env fuel allow v).
Proof.
  revert v; induction fuel as [|fuel IH]; intros v; simpl; no_groups;
    apply IH.
Qed.

Ltac no_group_steps :=
  unfold create_managed_identity, create_storage_account, assign_roles,
    create_aks_cluster, configure_workload_identity,
    configure_static_storage, configure_dynamic_storage;
  no_groups;
  first [ apply apply_manifests_no_group | apply retry_loop_no_group ].

Lemma use_case_body_no_group env mgr c case :
  always no_group (use_case_body env mgr c case).
Proof. unfold use_case_body. no_group_steps. Qed.

Lemma run_use_cases_no_group env g allow base mgr cases :
  forall i results,
    always no_group (run_use_cases env g allow base mgr i cases results).
Proof.
  induction cases as [|case rest IH]; intros i results; simpl.
  - apply always_ret.
  - unfold run_use_case. no_groups; [apply use_case_body_no_group|apply IH].
Qed.

Lemma group_tags_init {A} env c (f : AzureManager -> M A) (s : St) :
  exists a s1,
    config a = c
    /\ group_tags (log (bind (AzureManager_init env c) f s))
       = group_tags (log (f a s1)).
Proof.
  exists {| config := c;
            subscription_id :=
              PyStr.strip
                (stdout (run_result env (calls s)
                   ["az"; "account"; "show"; "--query"; "id"; "-o"; "tsv"]));
            resource_group_id := ""; storage_account_id := "";
            identity_principal_id := ""; identity_client_id := "";
            oidc_issuer_url := ""; blob_container_name := "mycontainer";
            file_share_name := "myshare" |},
         {| calls := S (calls s); tmp_next := tmp_next s;
            tmp_files := tmp_files s |}.
  split; [reflexivity|].
  unfold bind at 1.
  unfold AzureManager_init, get_subscription_id, subprocess_run, bind, ret.
  cbn [log st res app].
  destruct (f _ _) as [l2 s2 r2]. reflexivity.
Qed.

(** X9: the tags on the resource group name the use cases that the run
    goes through.  In the multi-case mode the only [az group create] of the
    run carries one tag per selected use case, in the order in which they
    run; in the single-case mode it carries the tag of the use case,
    followed by [KeyAccess=disabled] under [--disable-shared-key]. *)
Theorem resource_group_tags (env : World) (g : string) (s : St) :
  (forall storage provision modes,
      modes_fit modes storage provision = true ->
      group_tags (log (multi_case env g storage provision false modes s))
      = [map use_case_tag (select_use_cases modes storage provision)])
  /\ (forall stor prov dsk,
        group_tags (log (single_case env g (Some stor) (Some prov) dsk s))
        = [use_case_tag {| uc_storage := stor; uc_provision := prov;
                           uc_name := "" |}
           :: (if dsk then ["KeyAccess=disabled"] else [])]).
Proof.
  split.
  - intros storage provision modes Hfit.
    unfold multi_case. cbv zeta. cbn [negb andb]. rewrite bind_ret_l.
    rewrite group_tags_try by (intro; no_groups).
    rewrite group_tags_bind_l
      by (intro; no_groups; apply run_use_cases_no_group).
    unfold shared_infrastructure.
    match goal with
    | |- context[bind (AzureManager_init env ?c) ?f] =>
        destruct (group_tags_init env c f s) as (a & s1 & Ha & ->)
    end.
    rewrite group_tags_bind_l by (intro; no_group_steps).
    assert (Hallow : allow_shared_key_access (config a) = true)
      by (rewrite Ha; reflexivity).
    assert (Hst : storage_type (config a) = BLOB)
      by (rewrite Ha; reflexivity).
    assert (Hpt : provision_type (config a) = PERSISTENT)
      by (rewrite Ha; reflexivity).
    destruct modes as [[] [] []], storage as [[]|], provision as [[]|];
      try discriminate Hfit;
      cbn [run_all_cases run_all_storage_types run_all_provision_types];
      unfold create_resource_group; cbv zeta;
      rewrite Hallow;
      rewrite !group_tags_bind_l by (intro; no_groups);
      reflexivity.
  - intros stor prov dsk.
    unfold single_case. cbv zeta.
    assert (Hpre : forall (w : M unit) (k : M unit),
               always no_group w -> never_raises w ->
               (forall s0, st (w s0) = s0) ->
               group_tags (log (bind w (fun _ => k) s))
               = group_tags (log (k s))).
    { intros w k Hw Hok Hst. unfold bind.
      specialize (Hw s). specialize (Hok s). specialize (Hst s).
      apply no_group_tags in Hw.
      destruct (w s) as [l1 s1 [[]|e]]; cbn [log st res is_ok] in *;
        [|discriminate Hok].
      subst s1. destruct (k s) as [l2 s2 r2]. cbn [log].
      rewrite group_tags_app, Hw. reflexivity. }
    rewrite Hpre.
    2:{ no_groups. }
    2:{ intros s0. unfold when.
        destruct (negb (negb dsk)); [|reflexivity].
        destruct (StorageType_eqb stor FILE); [reflexivity|].
        destruct (_ && _); reflexivity. }
    2:{ intros s0. unfold when.
        destruct (negb (negb dsk)); [|reflexivity].
        destruct (StorageType_eqb stor FILE); [reflexivity|].
        destruct (_ && _); reflexivity. }
    rewrite group_tags_try by (intro; no_groups).
    match goal with
    | |- context[bind (AzureManager_init env ?c) ?f] =>
        destruct (group_tags_init env c f s) as (a & s1 & Ha & ->)
    end.
    rewrite group_tags_bind_l.
    2:{ intro.
        unfold create_managed_identity, create_storage_account, assign_roles,
          create_aks_cluster, configure_workload_identity,
          configure_static_storage, configure_dynamic_storage.
        no_groups;
          first [ apply apply_manifests_no_group
                | apply retry_loop_no_group ]. }
    assert (Hallow : allow_shared_key_access (config a) = negb dsk)
      by (rewrite Ha; reflexivity).
    assert (Hst : storage_type (config a) = stor)
      by (rewrite Ha; reflexivity).
    assert (Hpt : provision_type (config a) = prov)
      by (rewrite Ha; reflexivity).
    unfold create_resource_group. cbv zeta. rewrite Hallow, Hst, Hpt.
    rewrite !group_tags_bind_l by (intro; no_groups).
    destruct stor, prov, dsk; reflexivity.
Qed.

Lemma resource_group_tags_witness :
  group_tags
    (log (multi_case all_fine "poc" None (Some DYNAMIC) false
            {| run_all_cases := false; run_all_storage_types := true;
               run_all_provision_types := false |} initial))
  = [["UseCase2=Blob Storage with Dynamic Provisioning";
      "UseCase4=File Storage with Dynamic Provisioning"]].
Proof.
  rewrite (proj1 (resource_group_tags all_fine "poc" initial) None
             (Some DYNAMIC)
             {| run_all_cases := false; run_all_storage_types := true;
                run_all_provision_types := false |});
    reflexivity.
Defined.

(** ** The dynamic use cases of the multi-case mode *)

Lemma always_bind_post {A B} (P : Event -> Prop) (Q : A -> Prop)
    (m : M A) (f : A -> M B) :
  always P m ->
  (forall s a, res (m s) = Ok a -> Q a) ->
  (forall a, Q a -> always P (f a)) ->
  always P (bind m f).
Proof.
  intros Hm Hq Hf s. unfold bind. specialize (Hm s). specialize (Hq s).
  destruct (m s) as [l1 s1 [a|e]]; cbn [log res] in *; [|exact Hm].
  specialize (Hf a (Hq a eq_refl) s1).
  destruct (f a s1) as [l2 s2 r]. cbn [log] in *.
  apply Forall_app; split; assumption.
Qed.

Ltac storage_free_walk :=
  always_walk ltac:(first
    [ exact I
    | split; [reflexivity
             | first [intros H; discriminate H | intros _; reflexivity]] ]).

Lemma apply_manifests_storage_free env suffix items :
  always storage_free (apply_manifests env suffix items).
Proof.
  induction items as [|[y d] rest IH]; simpl; storage_free_walk. exact IH.
Qed.

Lemma assign_roles_dynamic env self :
  storage_account_id self = "" ->
  provision_type (config self) = DYNAMIC ->
  always storage_free (assign_roles env self).
Proof.
  intros Hid Hpt. unfold assign_roles. cbv zeta. rewrite Hid, Hpt.
  cbn [PyStr.truthy negb andb ProvisionType_eqb].
  storage_free_walk.
Qed.

(** X10: in the multi-case mode a use case with dynamic provisioning
    touches no storage account: it runs no [az storage] command and assigns
    no role other than the Reader role on the node resource group. *)
Theorem dynamic_case_needs_no_storage (env : World) (g : string)
    (allow : bool) (base : Config) (mgr : AzureManager) (case : UseCase)
    (s : St) :
  uc_provision case = DYNAMIC ->
  Forall storage_free
    (log (use_case_body env mgr (case_config env g allow base case) case s)).
Proof.
  intros Hdyn. revert s.
  change (always storage_free
            (use_case_body env mgr (case_config env g allow base case) case)).
  assert (Hpt : provision_type (case_config env g allow base case) = DYNAMIC)
    by (rewrite <- Hdyn; reflexivity).
  set (c := case_config env g allow base case) in *.
  set (Q := fun a : AzureManager =>
              storage_account_id a = "" /\ config a = c).
  unfold use_case_body. rewrite Hdyn.
  apply (always_bind_post _ Q); [storage_free_walk| |].
  { intros s a Ha. injection Ha as <-. split; reflexivity. }
  intros a0 (Hid0 & Hc0). cbv zeta.
  apply (always_bind_post _ Q); [storage_free_walk| |].
  { intros s a Ha. injection Ha as <-. split; assumption. }
  intros a1 (Hid1 & Hc1).
  apply (always_bind_post _ Q).
  { storage_free_walk. }
  { intros s a.
    destruct (negb (PyStr.truthy (identity_client_id a1))
              || negb (PyStr.truthy (identity_principal_id a1)));
      intros Ha; injection Ha as <-; split; assumption. }
  intros a2 (Hid2 & Hc2).
  apply always_bind.
  - apply assign_roles_dynamic; [exact Hid2|rewrite Hc2; exact Hpt].
  - intros _. unfold configure_dynamic_storage. storage_free_walk.
    apply apply_manifests_storage_free.
Qed.

Lemma dynamic_case_needs_no_storage_witness :
  let base := base_config all_fine "poc" false in
  let case := {| uc_storage := FILE; uc_provision := DYNAMIC;
                 uc_name := "File-Dynamic" |} in
  Forall storage_free
    (log (use_case_body all_fine (fresh_manager base)
            (case_config all_fine "poc" true base case) case initial)).
Proof.
  cbv zeta. apply dynamic_case_needs_no_storage. reflexivity.
Defined.

(** ** C5: the use cases that the multi-case mode goes through *)

Lemma step_headers (l : list Event) : Forall is_step l -> headers l = [].
Proof.
  induction 1 as [|e l He _ IH]; [reflexivity|].
  unfold headers in *. simpl. rewrite IH, app_nil_r.
  destruct e as [| |[]| |]; try reflexivity. discriminate He.
Qed.

Lemma headers_app (l1 l2 : list Event) :
  headers (l1 ++ l2) = headers l1 ++ headers l2.
Proof. apply flat_map_app. Qed.

Lemma use_case_body_step env mgr c case :
  always is_step (use_case_body env mgr c case).
Proof.
  assert (Hplain : forall A (m : M A), always is_plain m -> always is_step m).
  { intros A m. apply always_weaken, is_plain_step. }
  unfold use_case_body.
  always_walk ltac:(reflexivity).
  all: first [ apply Hplain, assign_roles_plain
             | apply Hplain, configure_static_storage_plain
             | apply Hplain, configure_dynamic_storage_plain ].
Qed.

Lemma attempt_log_headers env g allow base mgr i case s :
  headers (attempt_log env g allow base mgr (i, case, s))
  = [(i, uc_name case)].
Proof.
  unfold attempt_log, attempt_body.
  change (headers (?e :: ?l)) with (headers_of e ++ headers l).
  cbn [headers_of app]. rewrite headers_app.
  rewrite (step_headers _ (use_case_body_step env mgr _ case s)).
  destruct (res _); reflexivity.
Qed.

Lemma attempts_headers env g allow base mgr cases :
  forall i s,
    headers (flat_map (attempt_log env g allow base mgr)
               (attempts env g allow base mgr i cases s))
    = numbered i (map uc_name cases).
Proof.
  induction cases as [|case rest IH]; intros i s; [reflexivity|].
  cbn [attempts flat_map map numbered].
  rewrite headers_app, attempt_log_headers, IH. reflexivity.
Qed.

Lemma attempts_rows env g allow base mgr cases :
  forall i s,
    map row_case (map (attempt_row env g allow base mgr)
                    (attempts env g allow base mgr i cases s))
    = map uc_name cases.
Proof.
  induction cases as [|case rest IH]; intros i s; [reflexivity|].
  cbn [attempts map]. rewrite IH. reflexivity.
Qed.

Lemma multi_case_runs_selected env g storage provision modes s :
  runs_selected (multi_case env g storage provision false modes s)
    (select_use_cases modes storage provision).
Proof.
  unfold multi_case. cbv zeta. cbn [negb andb]. rewrite bind_ret_l.
  set (cases := select_use_cases modes storage provision).
  set (base := base_config env g false).
  pose proof (shared_infrastructure_step env base modes storage provision
                cases s) as Hstep.
  unfold try_except, bind.
  destruct (shared_infrastructure env base modes storage provision cases s)
    as [l0 s0 [mgr|e]]; cbn [log] in Hstep.
  - destruct (run_use_cases_attempts env g true base mgr cases 1 [] s0)
      as (s1 & ->).
    unfold print, emit. cbn [app log res].
    assert (Hh : headers
                   (l0 ++ flat_map (attempt_log env g true base mgr)
                            (attempts env g true base mgr 1 cases s0)
                       ++ [EPrint (MsgResults
                             (map (attempt_row env g true base mgr)
                                (attempts env g true base mgr 1 cases s0)))])
                 = numbered 1 (map uc_name cases)).
    { rewrite !headers_app, (step_headers _ Hstep), attempts_headers.
      cbn. apply app_nil_r. }
    unfold runs_selected. cbn [log res]. split.
    + exists []. rewrite Hh, app_nil_r. reflexivity.
    + intros _. split; [exact Hh|].
      eexists. split.
      * rewrite app_assoc. apply last_last.
      * apply attempts_rows.
  - unfold print, emit, raise. cbn [app log res].
    assert (Hh : headers (l0 ++ [EPrint (MsgFatal e)]) = []).
    { rewrite headers_app, (step_headers _ Hstep). reflexivity. }
    unfold runs_selected. cbn [log res]. split.
    + exists (numbered 1 (map uc_name cases)). rewrite Hh. reflexivity.
    + intros H. discriminate H.
Qed.

(** C5: without [--disable-shared-key], [main] with one of the two options
    goes through the two use cases that have the given value, and with
    neither option through the four use cases: it enters the multi-case
    mode, the use cases that the mode selects are those, the headers that
    the run prints are the first ones of them, in order, and a run that
    returns has started every one of them and ends with a table that has
    one row for each. *)
Theorem multi_case_selection (env : World) (g : string) (s : St) :
  (forall p, exists modes,
      main env g None (Some p) false s
      = multi_case env g (Some BLOB) (Some p) false modes s
      /\ pairs (select_use_cases modes (Some BLOB) (Some p))
         = [(BLOB, p); (FILE, p)]
      /\ runs_selected (main env g None (Some p) false s)
           (select_use_cases modes (Some BLOB) (Some p)))
  /\ (forall t, exists modes,
      main env g (Some t) None false s
      = multi_case env g (Some t) (Some PERSISTENT) false modes s
      /\ pairs (select_use_cases modes (Some t) (Some PERSISTENT))
         = [(t, PERSISTENT); (t, DYNAMIC)]
      /\ runs_selected (main env g (Some t) None false s)
           (select_use_cases modes (Some t) (Some PERSISTENT)))
  /\ (exists modes,
      main env g None None false s = multi_case env g None None false modes s
      /\ pairs (select_use_cases modes None None)
         = [(BLOB, PERSISTENT); (BLOB, DYNAMIC);
            (FILE, PERSISTENT); (FILE, DYNAMIC)]
      /\ runs_selected (main env g None None false s)
           (select_use_cases modes None None)).
Proof.
  split; [|split].
  - intros p.
    exists {| run_all_cases := false; run_all_storage_types := true;
              run_all_provision_types := false |}.
    assert (H : main env g None (Some p) false s
                = multi_case env g (Some BLOB) (Some p) false
                    {| run_all_cases := false; run_all_storage_types := true;
                       run_all_provision_types := false |} s)
      by (unfold main, resolve_modes; rewrite bind_ret_l; reflexivity).
    split; [exact H|]. split; [destruct p; reflexivity|].
    rewrite H. apply multi_case_runs_selected.
  - intros t.
    exists {| run_all_cases := false; run_all_storage_types := false;
              run_all_provision_types := true |}.
    assert (H : main env g (Some t) None false s
                = multi_case env g (Some t) (Some PERSISTENT) false
                    {| run_all_cases := false; run_all_storage_types := false;
                       run_all_provision_types := true |} s)
      by (unfold main, resolve_modes; rewrite bind_ret_l; reflexivity).
    split; [exact H|]. split; [destruct t; reflexivity|].
    rewrite H. apply multi_case_runs_selected.
  - exists {| run_all_cases := true; run_all_storage_types := false;
              run_all_provision_types := false |}.
    assert (H : main env g None None false s
                = multi_case env g None None false
                    {| run_all_cases := true; run_all_storage_types := false;
                       run_all_provision_types := false |} s)
      by (unfold main, resolve_modes; rewrite bind_ret_l; reflexivity).
    split; [exact H|]. split; [reflexivity|].
    rewrite H. apply multi_case_runs_selected.
Qed.

(** ** C3: the run under [--disable-shared-key] *)

Ltac keeps_by_paths :=
  cbv zeta; unfold_script; run_paths; unfold holds; cbn [res];
  intros mgr Hmgr; try discriminate Hmgr; injection Hmgr as <-; reflexivity.

Lemma create_resource_group_keeps env self a f :
  keeps_config (config self) (create_resource_group env self a f).
Proof.
  intros s.
  change (holds (fun o => forall a, res o = Ok a -> config a = config self)
            (create_resource_group env self a f s)).
  unfold create_resource_group. keeps_by_paths.
Qed.

Lemma create_managed_identity_keeps env self :
  keeps_config (config self) (create_managed_identity env self).
Proof.
  intros s.
  change (holds (fun o => forall a, res o = Ok a -> config a = config self)
            (create_managed_identity env self s)).
  unfold create_managed_identity. keeps_by_paths.
Qed.

Lemma create_aks_cluster_keeps env self :
  keeps_config (config self) (create_aks_cluster env self).
Proof.
  intros s.
  change (holds (fun o => forall a, res o = Ok a -> config a = config self)
            (create_aks_cluster env self s)).
  unfold create_aks_cluster. keeps_by_paths.
Qed.

Lemma create_storage_account_keeps env self :
  keeps_config (config self) (create_storage_account env self).
Proof.
  intros s.
  change (holds (fun o => forall a, res o = Ok a -> config a = config self)
            (create_storage_account env self s)).
  unfold create_storage_account. keeps_by_paths.
Qed.

Ltac serves_side :=
  first
    [ exact I
    | split;
      [ intros H; first [discriminate H | reflexivity]
      | intros H; first [discriminate H | reflexivity] ]
    | repeat split; reflexivity ].

Ltac serves_walk := always_walk ltac:(serves_side).

Lemma AzureManager_init_serves env c k c0 :
  always (serves c k) (AzureManager_init env c0).
Proof. serves_walk. Qed.

Lemma create_resource_group_serves env c k self :
  config self = c ->
  always (serves c k) (create_resource_group env self false None).
Proof.
  intros Hc. destruct self as [cfg sub rgid said pid cid oidc bc fs].
  cbn [config] in Hc. subst cfg.
  destruct c as [cg cst cpt cloc cuid crg csa cidn ccl callow].
  unfold create_resource_group. cbv zeta.
  cbn [config filter_truthy storage_type provision_type
       allow_shared_key_access].
  destruct cst, cpt, callow; serves_walk.
Qed.

Lemma create_managed_identity_serves env c k self :
  always (serves c k) (create_managed_identity env self).
Proof. unfold create_managed_identity. serves_walk. Qed.

Lemma retry_loop_serves env c k fuel allow v :
  always (serves c k) (retry_loop env fuel allow v).
Proof.
  revert v; induction fuel as [|fuel IH]; intros v; simpl; serves_walk;
    apply IH.
Qed.

Lemma create_storage_account_serves env c k self :
  always (serves c k) (create_storage_account env self).
Proof.
  unfold create_storage_account. serves_walk. apply retry_loop_serves.
Qed.

Lemma assign_roles_serves env c k self :
  always (serves c k) (assign_roles env self).
Proof. unfold assign_roles. serves_walk. Qed.

Lemma create_aks_cluster_serves env c k self :
  always (serves c k) (create_aks_cluster env self).
Proof. unfold create_aks_cluster. serves_walk. Qed.

Lemma configure_workload_identity_serves env c k self :
  always (serves c k) (configure_workload_identity env self).
Proof. unfold configure_workload_identity. serves_walk. Qed.

Lemma configure_static_storage_serves env c k self :
  config self = c -> provision_type c = PERSISTENT ->
  always (serves c k) (configure_static_storage env self).
Proof.
  intros Hc Hpt. destruct self as [cfg sub rgid said pid cid oidc bc fs].
  cbn [config] in Hc. subst cfg.
  destruct c as [cg cst cpt cloc cuid crg csa cidn ccl callow].
  cbn [provision_type] in Hpt. subst cpt.
  unfold configure_static_storage. cbv zeta.
  cbn [config apply_manifests storage_type].
  destruct cst; serves_walk.
Qed.

Lemma configure_dynamic_storage_serves env c k self :
  config self = c -> provision_type c = DYNAMIC ->
  always (serves c k) (configure_dynamic_storage env self).
Proof.
  intros Hc Hpt. destruct self as [cfg sub rgid said pid cid oidc bc fs].
  cbn [config] in Hc. subst cfg.
  destruct c as [cg cst cpt cloc cuid crg csa cidn ccl callow].
  cbn [provision_type] in Hpt. subst cpt.
  unfold configure_dynamic_storage. cbv zeta.
  cbn [config apply_manifests storage_type].
  destruct cst; serves_walk.
Qed.

Lemma single_case_serves env g stor prov dsk :
  always
    (serves (single_config env g stor prov dsk)
       (keyless_support stor prov (negb dsk)))
    (single_case env g (Some stor) (Some prov) dsk).
Proof.
  unfold single_case. cbv zeta.
  set (c := single_config env g stor prov dsk).
  set (k := keyless_support stor prov (negb dsk)).
  set (Q := fun a : AzureManager => config a = c).
  apply always_bind; [serves_walk|intros _].
  apply always_try_except; [|intro; serves_walk].
  apply (always_bind_post _ Q);
    [apply AzureManager_init_serves
    |intros s a Ha; injection Ha as <-; reflexivity
    |intros a0 H0].
  apply (always_bind_post _ Q);
    [apply create_resource_group_serves, H0
    |intros s a Ha; unfold Q in *; rewrite <- H0;
     apply (create_resource_group_keeps _ _ _ _ _ _ Ha)
    |intros a1 H1].
  apply (always_bind_post _ Q);
    [apply create_managed_identity_serves
    |intros s a Ha; unfold Q in *; rewrite <- H1;
     apply (create_managed_identity_keeps _ _ _ _ Ha)
    |intros a2 H2].
  apply (always_bind_post _ Q);
    [apply create_storage_account_serves
    |intros s a Ha; unfold Q in *; rewrite <- H2;
     apply (create_storage_account_keeps _ _ _ _ Ha)
    |intros a3 H3].
  apply always_bind; [apply assign_roles_serves|intros _].
  apply (always_bind_post _ Q);
    [apply create_aks_cluster_serves
    |intros s a Ha; unfold Q in *; rewrite <- H3;
     apply (create_aks_cluster_keeps _ _ _ _ Ha)
    |intros a4 H4].
  apply always_bind; [apply configure_workload_identity_serves|intros _].
  apply always_bind; [|intros _; serves_walk].
  destruct (provision_type c) eqn:Hpt.
  - apply configure_static_storage_serves; assumption.
  - apply configure_dynamic_storage_serves; assumption.
Qed.

(** *** What a run that returns has written *)

Definition no_tmp (e : Event) : Prop :=
  match e with ETmpCreate _ _ => False | _ => True end.

Lemma no_tmp_manifests (l : list Event) :
  Forall no_tmp l -> manifests l = [].
Proof.
  induction 1 as [|e l He _ IH]; [reflexivity|].
  unfold manifests in *. simpl. rewrite IH.
  destruct e; try reflexivity. contradiction.
Qed.

Lemma manifests_app (l1 l2 : list Event) :
  manifests (l1 ++ l2) = manifests l1 ++ manifests l2.
Proof. apply flat_map_app. Qed.

Lemma bind_ok {A B} (m : M A) (f : A -> M B) (s : St) (b : B) :
  res (bind m f s) = Ok b ->
  exists a,
    res (m s) = Ok a
    /\ res (f a (st (m s))) = Ok b
    /\ log (bind m f s) = log (m s) ++ log (f a (st (m s))).
Proof.
  unfold bind. destruct (m s) as [l1 s1 [a|e]]; simpl;
    [|intros H; discriminate H].
  destruct (f a s1) as [l2 s2 r] eqn:Hf. simpl. intros ->.
  exists a. rewrite Hf. repeat split; reflexivity.
Qed.

Lemma try_except_ok {A} (m : M A) (s : St) (b : A) :
  res (try_except m fatal s) = Ok b ->
  res (m s) = Ok b /\ log (try_except m fatal s) = log (m s).
Proof.
  unfold try_except, fatal. destruct (m s) as [l1 s1 [a|e]];
    cbn [log res]; [auto|intros H; discriminate H].
Qed.

Ltac no_tmps := always_walk ltac:(exact I).

Lemma retry_loop_no_tmp env fuel allow v :
  always no_tmp (retry_loop env fuel allow v).
Proof.
  revert v; induction fuel as [|fuel IH]; intros v; simpl; no_tmps; apply IH.
Qed.

Lemma apply_manifests_written env suffix items :
  forall s,
    is_ok (res (apply_manifests env suffix items s)) = true ->
    manifests (log (apply_manifests env suffix items s)) = map fst items.
Proof.
  induction items as [|[y d] rest IH]; intros s; [reflexivity|].
  cbn [apply_manifests map fst].
  unfold display_k8s_yaml, kubectl_apply, NamedTemporaryFile, unlink,
    subprocess_run, when, print, emit, bind, ret, raise.
  cbn [log st res calls tmp_next tmp_files app].
  destruct (succeeded _).
  - cbn [log st res calls tmp_next tmp_files app].
    match goal with
    | |- context[apply_manifests env suffix rest ?s1] =>
        specialize (IH s1);
        destruct (apply_manifests env suffix rest s1) as [l2 s2 r2]
    end.
    cbn [log res] in *. intros H. cbn [manifests flat_map app].
    f_equal. apply IH. destruct r2; [reflexivity|discriminate H].
  - destruct (PyStr.truthy _ && PyStr.truthy _); cbn [log st res app];
      intros H; discriminate H.
Qed.

Lemma AzureManager_init_no_tmp env c : always no_tmp (AzureManager_init env c).
Proof. no_tmps. Qed.

Lemma create_resource_group_no_tmp env self a f :
  always no_tmp (create_resource_group env self a f).
Proof. unfold create_resource_group. no_tmps. Qed.

Lemma create_managed_identity_no_tmp env self :
  always no_tmp (create_managed_identity env self).
Proof. unfold create_managed_identity. no_tmps. Qed.

Lemma create_storage_account_no_tmp env self :
  always no_tmp (create_storage_account env self).
Proof.
  unfold create_storage_account. no_tmps. apply retry_loop_no_tmp.
Qed.

Lemma assign_roles_no_tmp env self : always no_tmp (assign_roles env self).
Proof. unfold assign_roles. no_tmps. Qed.

Lemma create_aks_cluster_no_tmp env self :
  always no_tmp (create_aks_cluster env self).
Proof. unfold create_aks_cluster. no_tmps. Qed.

Lemma wait_for_job_no_tmp env job timeout done :
  always no_tmp (wait_for_job env job timeout done).
Proof. no_tmps. Qed.

Lemma configure_workload_identity_written env self s :
  manifests (log (configure_workload_identity env self s))
  = [ServiceAccountYaml (identity_client_id self)].
Proof.
  unfold configure_workload_identity. cbv zeta.
  unfold display_k8s_yaml, kubectl_apply, NamedTemporaryFile,
    subprocess_run, when, print, emit, bind, ret, raise.
  cbn [log st res calls tmp_next tmp_files app].
  destruct (succeeded _); [reflexivity|].
  destruct (PyStr.truthy _ && PyStr.truthy _); reflexivity.
Qed.

Lemma configure_static_storage_written env self s :
  res (configure_static_storage env self s) = Ok tt ->
  manifests (log (configure_static_storage env self s))
  = [PersistentVolumeYaml (storage_type (config self))
       (resource_group (config self)) (storage_account (config self))
       match storage_type (config self) with
       | BLOB => blob_container_name self
       | FILE => file_share_name self
       end (identity_client_id self);
     PersistentVolumeClaimYaml (storage_type (config self)) PERSISTENT;
     JobYaml (storage_type (config self)) PERSISTENT].
Proof.
  unfold configure_static_storage. cbv zeta. intros H.
  apply bind_ok in H as (u & Hu & H & ->).
  rewrite manifests_app,
    (no_tmp_manifests _ (wait_for_job_no_tmp env _ _ _ _)), app_nil_r.
  rewrite apply_manifests_written by (rewrite Hu; reflexivity).
  reflexivity.
Qed.

Ltac skip_step Hlog :=
  match type of Hlog with
  | context[manifests (log (?m ?s0)) ++ _] =>
      let Hz := fresh in
      assert (Hz : manifests (log (m s0)) = [])
        by (apply no_tmp_manifests;
            first [ apply AzureManager_init_no_tmp
                  | apply create_resource_group_no_tmp
                  | apply create_managed_identity_no_tmp
                  | apply create_storage_account_no_tmp
                  | apply assign_roles_no_tmp
                  | apply create_aks_cluster_no_tmp ]);
      rewrite Hz in Hlog; clear Hz
  end.

Lemma blob_static_run_written env g dsk s :
  res (single_case env g (Some BLOB) (Some PERSISTENT) dsk s) = Ok tt ->
  exists self,
    config self = single_config env g BLOB PERSISTENT dsk
    /\ manifests (log (single_case env g (Some BLOB) (Some PERSISTENT) dsk s))
       = [ServiceAccountYaml (identity_client_id self);
          PersistentVolumeYaml BLOB
            (resource_group (single_config env g BLOB PERSISTENT dsk))
            (storage_account (single_config env g BLOB PERSISTENT dsk))
            (blob_container_name self) (identity_client_id self);
          PersistentVolumeClaimYaml BLOB PERSISTENT;
          JobYaml BLOB PERSISTENT].
Proof.
  unfold single_case. cbv zeta.
  change (fun e : Exn => print (MsgFatal e);; raise (Exit 1))
    with (@fatal unit).
  set (c := single_config env g BLOB PERSISTENT dsk).
  intros H.
  match goal with
  | |- exists self, _ /\ manifests ?l = _ =>
      remember (manifests l) as written eqn:Hlog
  end.
  apply bind_ok in H as (u & Hu & H & Hl).
  rewrite Hl, manifests_app in Hlog. clear Hl. cbv beta in H, Hlog.
  match type of Hlog with
  | context[manifests (log (?w s))] =>
      assert (Hw : always no_tmp w) by no_tmps;
      rewrite (no_tmp_manifests _ (Hw s)) in Hlog; clear Hw
  end.
  cbv beta in H, Hlog.
  apply try_except_ok in H as (H & Hl). rewrite Hl in Hlog. clear Hl.
  cbv beta in H, Hlog.
  apply bind_ok in H as (a0 & H0 & H & Hl).
  rewrite Hl, manifests_app in Hlog. skip_step Hlog.
  clear Hl. cbv beta in H, Hlog.
  assert (C0 : config a0 = c) by (injection H0 as <-; reflexivity).
  apply bind_ok in H as (a1 & H1 & H & Hl).
  rewrite Hl, manifests_app in Hlog. skip_step Hlog.
  clear Hl. cbv beta in H, Hlog.
  assert (C1 : config a1 = c)
    by (rewrite <- C0; apply (create_resource_group_keeps _ _ _ _ _ _ H1)).
  apply bind_ok in H as (a2 & H2 & H & Hl).
  rewrite Hl, manifests_app in Hlog. skip_step Hlog.
  clear Hl. cbv beta in H, Hlog.
  assert (C2 : config a2 = c)
    by (rewrite <- C1; apply (create_managed_identity_keeps _ _ _ _ H2)).
  apply bind_ok in H as (a3 & H3 & H & Hl).
  rewrite Hl, manifests_app in Hlog. skip_step Hlog.
  clear Hl. cbv beta in H, Hlog.
  assert (C3 : config a3 = c)
    by (rewrite <- C2; apply (create_storage_account_keeps _ _ _ _ H3)).
  apply bind_ok in H as (u4 & H4 & H & Hl).
  rewrite Hl, manifests_app in Hlog. skip_step Hlog.
  clear Hl. cbv beta in H, Hlog.
  apply bind_ok in H as (a5 & H5 & H & Hl).
  rewrite Hl, manifests_app in Hlog. skip_step Hlog.
  clear Hl. cbv beta in H, Hlog.
  assert (C5 : config a5 = c)
    by (rewrite <- C3; apply (create_aks_cluster_keeps _ _ _ _ H5)).
  apply bind_ok in H as (u6 & H6 & H & Hl).
  rewrite Hl, manifests_app, configure_workload_identity_written in Hlog.
  clear Hl. cbv beta in H, Hlog.
  apply bind_ok in H as ([] & H7 & H & Hl).
  rewrite Hl, manifests_app in Hlog. clear Hl. cbv beta in H, Hlog.
  change (provision_type c) with PERSISTENT in *. cbv iota in *.
  rewrite (configure_static_storage_written _ _ _ H7), C5 in Hlog.
  change (storage_type c) with BLOB in Hlog. cbv iota in Hlog.
  exists a5. split; [exact C5|]. rewrite Hlog. reflexivity.
Qed.

(** C3: with [--disable-shared-key], [--storage File] or
    [--provision Dynamic] makes [main] exit with code 1 before it runs any
    command.  Without such a conflict [main] is the single-case run for
    Blob storage with Persistent provisioning (after one message), whatever
    the two options were, and never the multi-case run: no header, error
    line or table of the multi-case mode is printed; the resource group is
    tagged with that one use case and [KeyAccess=disabled]; every manifest
    written, every job waited for and every summary is the one of Blob
    storage with Persistent provisioning, keyless; and a run that returns
    has written the service account and the volume, the claim and the job
    of that use case, these and no others, and ends with its summary. *)
Theorem disable_shared_key_validation (env : World) (g : string)
    (storage : option StorageType) (provision : option ProvisionType)
    (s : St) :
  (storage = Some FILE \/ provision = Some DYNAMIC ->
     let o := main env g storage provision true s in
     res o = Raise (Exit 1) /\ exit_code (res o) = 1%Z
     /\ commands (log o) = [] /\ st o = s)
  /\ (storage <> Some FILE -> provision <> Some DYNAMIC ->
      let o := main env g storage provision true s in
      let c := single_config env g BLOB PERSISTENT true in
      main env g storage provision true s
      = (print (MsgInfo "Keyless Mode Restriction") ;;
         single_case env g (Some BLOB) (Some PERSISTENT) true) s
      /\ Forall (serves c true) (log o)
      /\ (res o = Ok tt ->
          (exists self,
              config self = c
              /\ manifests (log o)
                 = [ServiceAccountYaml (identity_client_id self);
                    PersistentVolumeYaml BLOB (resource_group c)
                      (storage_account c) (blob_container_name self)
                      (identity_client_id self);
                    PersistentVolumeClaimYaml BLOB PERSISTENT;
                    JobYaml BLOB PERSISTENT])
          /\ exists l, log o = l ++ closing_lines c true)).
Proof.
  split.
  - intros H. destruct storage as [[]|], provision as [[]|];
      try (destruct H as [H|H]; discriminate H);
      cbv zeta; repeat split; reflexivity.
  - intros Hs Hp. cbv zeta.
    assert (Hmain : main env g storage provision true s
                    = (print (MsgInfo "Keyless Mode Restriction") ;;
                       single_case env g (Some BLOB) (Some PERSISTENT) true)
                        s).
    { destruct storage as [[]|], provision as [[]|];
        try (exfalso; apply Hs; reflexivity);
        try (exfalso; apply Hp; reflexivity);
        unfold main, resolve_modes, bind, print, emit, ret,
          default_storage, default_provision, is_some, is_none; simpl;
        destruct (single_case env g (Some BLOB) (Some PERSISTENT) true s)
          as [l s' r]; reflexivity. }
    split; [exact Hmain|]. rewrite Hmain.
    pose proof (single_case_serves env g BLOB PERSISTENT true s) as Hserves.
    pose proof (blob_static_run_written env g true s) as Hwritten.
    pose proof (single_case_finishes env g (Some BLOB) (Some PERSISTENT)
                  true s) as Hends.
    unfold bind, print, emit.
    destruct (single_case env g (Some BLOB) (Some PERSISTENT) true s)
      as [l s' r].
    cbn [log res app is_ok] in *.
    split; [constructor; [exact I|exact Hserves]|].
    intros Hr. subst r. split.
    + destruct (Hwritten eq_refl) as (self & Hc & Hm).
      exists self. split; [exact Hc|exact Hm].
    + destruct (Hends eq_refl) as (l' & ->).
      exists (EPrint (MsgInfo "Keyless Mode Restriction") :: l').
      reflexivity.
Qed.

Lemma disable_shared_key_validation_witness :
  (let o := main all_fine "poc" (Some FILE) None true initial in
   res o = Raise (Exit 1) /\ exit_code (res o) = 1%Z
   /\ commands (log o) = [] /\ st o = initial)
  /\ main all_fine "poc" None None true initial
     = (print (MsgInfo "Keyless Mode Restriction") ;;
        single_case all_fine "poc" (Some BLOB) (Some PERSISTENT) true)
         initial
  /\ manifests (log (main all_fine "poc" None None true initial))
     = [ServiceAccountYaml "ok";
        PersistentVolumeYaml BLOB "poc-fedcba-rg" "pocfedcbasa" "mycontainer"
          "ok";
        PersistentVolumeClaimYaml BLOB PERSISTENT;
        JobYaml BLOB PERSISTENT].
Proof.
  split; [|split].
  - apply (proj1 (disable_shared_key_validation all_fine "poc" (Some FILE)
                    None initial)).
    left. reflexivity.
  - apply (proj2 (disable_shared_key_validation all_fine "poc" None None
                    initial)); discriminate.
  - destruct (proj2 (disable_shared_key_validation all_fine "poc" None None
                       initial)) as (_ & _ & H);
      [discriminate|discriminate|].
    destruct (proj1 (H eq_refl)) as (self & _ & Hm).
    vm_compute. reflexivity.
Defined.

(** ** C6: an error text that rich does not render *)


(** ** C9 and C10: temporary files, failed applies and the job timeout *)

Lemma multi_case_selection_witness :
  exists modes,
    headers (log (main all_fine "poc" None (Some DYNAMIC) false initial))
    = numbered 1
        (map uc_name (select_use_cases modes (Some BLOB) (Some DYNAMIC))).
Proof.
  destruct (proj1 (multi_case_selection all_fine "poc" initial) DYNAMIC)
    as (modes & _ & _ & _ & Hret).
  exists modes. apply Hret. vm_compute. reflexivity.
Defined.






